(** * Verification of the PlatformIO adapter for the mbed build API

    Shallow embedding of [pio_mbed_adapter.py] ([PlatformioMbedAdapter]):
    the path normaliser [fix_path] / [fix_paths], the symbol sanitiser
    [process_symbols], [merge_apps] and [extract_project_info].

    Python strings are modelled as [String.string] (ASCII); a value that
    may be a [str] or [None] is an [option string].  Paths use the POSIX
    separator ["/"] of [os.path] on the build host. *)

From Stdlib Require Import String Ascii List Bool Arith NArith Lia.
From Stdlib Require Import Sorting.Sorted Sorting.Permutation.
Import ListNotations.
Open Scope string_scope.

(** ** Python string primitives *)

Module Py.

(** The double quote and backslash characters, and the newline. *)
Definition dq_char : ascii := "034"%char.
Definition bs_char : ascii := "092"%char.
Definition dq : string := String dq_char EmptyString.
Definition bs : string := String bs_char EmptyString.
Definition nl : string := String "010"%char EmptyString.

(** [sub in s]: [String.prefix sub s] is tried at every position. *)
Fixpoint contains (sub s : string) : bool :=
  if String.prefix sub s then true
  else match s with
       | EmptyString => false
       | String _ s' => contains sub s'
       end.

(** [s.index(sub)]: position of the first occurrence.  Python raises
    [ValueError] when [sub] does not occur; every call site below is
    guarded by [contains], so the [None] branch is never taken. *)
Fixpoint find (sub s : string) : option nat :=
  if String.prefix sub s then Some 0
  else match s with
       | EmptyString => None
       | String _ s' => option_map S (find sub s')
       end.

Definition index (sub s : string) : nat :=
  match find sub s with Some i => i | None => 0 end.

(** [s[n:]]: slicing past the end yields the empty string. *)
Fixpoint drop (n : nat) (s : string) : string :=
  match n, s with
  | 0, _ => s
  | S _, EmptyString => EmptyString
  | S n', String _ s' => drop n' s'
  end.

(** [c in s] for a single character. *)
Fixpoint has_char (c : ascii) (s : string) : bool :=
  match s with
  | EmptyString => false
  | String c' s' => (Ascii.eqb c c' || has_char c s')%bool
  end.

(** [s.replace(dq, bs + dq)]: every double quote gets a backslash before it. *)
Fixpoint escape_quotes (s : string) : string :=
  match s with
  | EmptyString => EmptyString
  | String c s' =>
      if Ascii.eqb c dq_char then String bs_char (String dq_char (escape_quotes s'))
      else String c (escape_quotes s')
  end.

(** Truthiness of a [str] or [None]: [not path]. *)
Definition falsy (p : option string) : bool :=
  match p with
  | None => true
  | Some EmptyString => true
  | Some _ => false
  end.

End Py.

(** ** [os.path] (posixpath) *)

Module OsPath.
Import Py.

Definition sep_char : ascii := "/"%char.

(** [posixpath.basename(p)] is [p[p.rfind('/') + 1:]]: the text after the
    last separator (the whole string when there is none). *)
Fixpoint basename (p : string) : string :=
  match p with
  | EmptyString => EmptyString
  | String c p' =>
      if has_char sep_char p' then basename p'
      else if Ascii.eqb c sep_char then p'
      else p
  end.

(** [posixpath.join(a, b)] for two components. *)
Definition join (a b : string) : string :=
  match b with
  | String c _ => if Ascii.eqb c sep_char then b else
      match a with
      | EmptyString => b
      | _ => if String.eqb (basename a) EmptyString then a ++ b else a ++ "/" ++ b
      end
  | EmptyString =>
      match a with
      | EmptyString => EmptyString
      | _ => if String.eqb (basename a) EmptyString then a else a ++ "/"
      end
  end.

End OsPath.

(** ** [list.sort] on strings

    Python compares [str] values code point by code point, a proper prefix
    being smaller: this is [String.compare].  [list.sort] is a stable sort;
    for a total order every sorting algorithm returns the same list, and
    insertion sort is used here. *)

Module PySort.

Definition str_le (a b : string) : Prop := String.compare a b <> Gt.
Definition str_lt (a b : string) : Prop := String.compare a b = Lt.

Fixpoint insert (x : string) (l : list string) : list string :=
  match l with
  | [] => [x]
  | y :: l' => if String.leb x y then x :: y :: l' else y :: insert x l'
  end.

Fixpoint sort (l : list string) : list string :=
  match l with
  | [] => []
  | x :: l' => insert x (sort l')
  end.

End PySort.

(** ** External collaborators and the effects of the adapter *)

Module Adapter.
Import Py OsPath.

(** A memory region of [tools.config]: a [namedtuple] with fields
    [name start size active filename]. *)
Record Region := mkRegion {
  r_name : string;
  r_start : nat;
  r_size : nat;
  r_active : bool;
  r_filename : option string
}.

(** [r._replace(filename=f)] *)
Definition replace_filename (r : Region) (f : string) : Region :=
  mkRegion (r_name r) (r_start r) (r_size r) (r_active r) (Some f).

(** What the resource scanner ([Resources.scan_with_toolchain]) returns:
    lists of file references, and a linker script that may be [None]. *)
Record Resources := mkResources {
  s_sources : list string;
  c_sources : list string;
  cpp_sources : list string;
  res_inc_dirs : list string;
  linker_script : option string;
  objects : list string;
  libraries : list string;
  lib_dirs : list string;
  hex_files : list string;
  bin_files : list string
}.

(** Observable effects: writes to [sys.stderr] and calls into the mbed
    build API. *)
Inductive Event :=
| EStderr (msg : string)
| EPrepareToolchain (src_paths : list string)
| EScan (src_paths : list string)
| EConfigHeader
| EMerge (regions : list Region) (out : string).

Inductive Exn := TypeError | IndexError.

Inductive Outcome (A : Type) :=
| Ret (a : A)
| Raise (e : Exn)
| Exit (code : nat).
Arguments Ret {A}. Arguments Raise {A}. Arguments Exit {A}.

(** A state monad over the trace of events, with Python exceptions and
    [sys.exit]. *)
Definition M (A : Type) := list Event -> Outcome A * list Event.

Definition ret {A} (a : A) : M A := fun tr => (Ret a, tr).
Definition bind {A B} (m : M A) (k : A -> M B) : M B :=
  fun tr => match m tr with
            | (Ret a, tr') => k a tr'
            | (Raise e, tr') => (Raise e, tr')
            | (Exit c, tr') => (Exit c, tr')
            end.
Definition emit (e : Event) : M unit := fun tr => (Ret tt, (tr ++ [e])%list).
Definition raise {A} (e : Exn) : M A := fun tr => (Raise e, tr).
Definition sys_exit {A} (c : nat) : M A := fun tr => (Exit c, tr).

Notation "x <- m ;; k" := (bind m (fun x => k))
  (at level 61, m at next level, right associativity).
Notation "m ;; k" := (bind m (fun _ => k))
  (at level 61, right associativity).

(** [sys.stderr.write] called with the argument list [args]: the file's [write] method takes exactly one
    argument and raises [TypeError] otherwise, before writing anything. *)
Definition stderr_write (args : list string) : M unit :=
  match args with
  | [msg] => emit (EStderr msg)
  | _ => raise TypeError
  end.

(** The adapter's fields ([__init__]). *)
Record Adapter := mkAdapter {
  src_paths : list string;
  build_path : string;
  target : string;
  framework_path : string;
  app_config : option string;
  ignore_dirs : option (list string);
  toolchain_name : string
}.

(** The toolchain object returned by [prepare_toolchain], through the
    attributes the adapter reads: [flags], [sys_libs], [get_symbols()],
    [config.has_regions], [config.regions] and [target]. *)
Record Toolchain := mkToolchain {
  tc_flags : list (string * list string);
  sys_libs : list string;
  tc_symbols : list string;
  config_has_regions : bool;
  config_regions : list Region;
  tc_target : string
}.

(** The dictionary returned by [extract_project_info]. *)
Record ProjectInfo := mkProjectInfo {
  src_files : list string;
  inc_dirs : list string;
  ldscript : list string;
  objs : list string;
  build_flags : list (string * list string);
  libs : list string;
  lib_paths : list string;
  syslibs : list string;
  build_symbols : list string;
  hex : list string;
  bin : list string
}.

Section Adapter.

(** The adapter object and the mbed build API it calls.  The build API is
    not part of this repository: each function is a parameter of the
    development, and a call is recorded in the trace. *)
Variable self : Adapter.

Variable TargetInfo Profile : Type.
(** [TARGET_MAP.get(target, '')]: [None] stands for every falsy result. *)
Variable TARGET_MAP : string -> option TargetInfo.
Variable isfile : string -> bool.
Variable load_json : string -> Profile.
Variable prepare_toolchain_fn :
  list string -> string -> TargetInfo -> string -> option string ->
  list Profile -> option (list string) -> Toolchain.
Variable scan_with_toolchain_fn : list string -> Toolchain -> Resources.
Variable relpath : string -> string.
Variable UPDATE_WHITELIST : list string.
Variable generate_update_filename : string -> string -> string.

Definition BUILD_PROFILE : string := "release".

(** ** [fix_path] and [fix_paths] *)

Definition fix_path (path : option string) : string :=
  if falsy path then EmptyString
  else
    let p := match path with Some p => p | None => EmptyString end in
    let framework_dir := basename (framework_path self) in
    if contains framework_dir p then
      let fixed_path := drop (index framework_dir p + String.length framework_dir) p in
      drop 1 fixed_path
    else p.

Fixpoint fix_paths (paths : list (option string)) : list string :=
  match paths with
  | [] => []
  | path :: paths' =>
      let path := fix_path path in
      if falsy (Some path) then fix_paths paths'
      else path :: fix_paths paths'
  end.

(** ** [process_symbols] *)

Definition timestamp_marker : string := "MBED_BUILD_TIMESTAMP".

(** The loop body, appending to [result] in input order. *)
Fixpoint process_symbols_loop (symbols : list string) : list string :=
  match symbols with
  | [] => []
  | s :: rest =>
      if contains timestamp_marker s then process_symbols_loop rest
      else if (contains dq s && contains ".h" s)%bool then
        escape_quotes s :: process_symbols_loop rest
      else s :: process_symbols_loop rest
  end.

Definition process_symbols (symbols : list string) : list string :=
  PySort.sort (process_symbols_loop symbols).


(** ** [get_build_profile] and [get_target_config] *)

Definition get_build_profile : M (list Profile) :=
  let file_with_profiles :=
    join (join (join (framework_path self) "tools") "profiles")
         (BUILD_PROFILE ++ ".json") in
  if negb (isfile file_with_profiles) then
    (stderr_write ["Could not find the file with build profiles!" ++ nl] ;;
     sys_exit 1)
  else ret [load_json file_with_profiles].

(** The code passes the format string and the target name as two separate
    arguments to [sys.stderr.write]. *)
Definition get_target_config : M TargetInfo :=
  match TARGET_MAP (target self) with
  | None =>
      stderr_write ["Failed to extract info for %s target" ++ nl; target self] ;;
      sys_exit 1
  | Some target_info => ret target_info
  end.

(** ** [prepare_toolchain], [Resources(...).scan_with_toolchain],
    [merge_region_list] and [get_config_header] *)

Definition prepare_toolchain (src : list string) (tinfo : TargetInfo)
    (profile : list Profile) : M Toolchain :=
  emit (EPrepareToolchain src) ;;
  ret (prepare_toolchain_fn src (build_path self) tinfo (toolchain_name self)
         (app_config self) profile (ignore_dirs self)).

Definition scan_with_toolchain (src : list string) (tc : Toolchain) : M Resources :=
  emit (EScan src) ;; ret (scan_with_toolchain_fn src tc).

Definition merge_region_list (regions : list Region) (out : string) : M unit :=
  emit (EMerge regions out).

Definition in_update_whitelist (name : string) : bool :=
  existsb (String.eqb name) UPDATE_WHITELIST.

(** ** [merge_apps] *)

Definition merge_apps (tc : Toolchain) (userprog_path firmware_path : string)
    : M unit :=
  if config_has_regions tc then
    let region_list :=
      map (fun r => if r_active r then replace_filename r userprog_path else r)
          (config_regions tc) in
    (merge_region_list region_list firmware_path ;;
     let update_regions :=
       filter (fun r => in_update_whitelist (r_name r)) region_list in
     match update_regions with
     | [] => ret tt
     | _ :: _ =>
         let update_res :=
           join (build_path self)
                (generate_update_filename firmware_path (tc_target tc)) in
         merge_region_list update_regions update_res
     end)
  else ret tt.

(** ** [extract_project_info]

    [self.src_paths] is a list here (the code wraps a single path into a
    list first).  The result dictionary is built from the scanned
    resources and the toolchain. *)

Definition project_info (tc : Toolchain) (res : Resources) : ProjectInfo :=
  let src := (s_sources res ++ c_sources res ++ cpp_sources res)%list in
  mkProjectInfo
    (fix_paths (map Some src))
    (fix_paths (map Some (res_inc_dirs res)))
    (fix_paths [linker_script res])
    (fix_paths (map Some (objects res)))
    (tc_flags tc)
    (map basename (fix_paths (map Some (libraries res))))
    (fix_paths (map Some (lib_dirs res)))
    (sys_libs tc)
    (process_symbols (tc_symbols tc))
    (fix_paths (map Some (hex_files res)))
    (fix_paths (map Some (bin_files res))).

Definition extract_project_info (generate_config : bool) : M ProjectInfo :=
  tinfo <- get_target_config ;;
  profile <- get_build_profile ;;
  let src := map relpath (src_paths self) in
  tc <- prepare_toolchain src tinfo profile ;;
  (* name = basename(normpath(abspath(self.src_paths[0]))) *)
  (match src with [] => raise IndexError | _ => ret tt end) ;;
  res <- scan_with_toolchain src tc ;;
  (if generate_config then emit EConfigHeader else ret tt) ;;
  ret (project_info tc res).

End Adapter.
End Adapter.

(** ** Properties stated about the outputs *)

Module SpecPreds.
Import Py.

(** Every double quote of [t] is immediately preceded by a backslash;
    [prev] is the character before [t]. *)
Fixpoint quotes_escaped_from (prev : option ascii) (t : string) : bool :=
  match t with
  | EmptyString => true
  | String c t' =>
      ((if Ascii.eqb c dq_char then
          match prev with Some p => Ascii.eqb p bs_char | None => false end
        else true)
       && quotes_escaped_from (Some c) t')%bool
  end.

Definition quotes_escaped (t : string) : bool := quotes_escaped_from None t.

(** The scanner found no file at all: every list is empty and the linker
    script is [None] or empty. *)
Definition no_file_references (res : Adapter.Resources) : bool :=
  (forallb (fun l => match l with [] => true | _ :: _ => false end)
     [Adapter.s_sources res; Adapter.c_sources res; Adapter.cpp_sources res;
      Adapter.res_inc_dirs res; Adapter.objects res; Adapter.libraries res;
      Adapter.lib_dirs res; Adapter.hex_files res; Adapter.bin_files res]
   && falsy (Adapter.linker_script res))%bool.

End SpecPreds.

(** ** A concrete configuration of the build API

    Used to evaluate the adapter on explicit inputs: target [K64F] is the
    only registered target, and the framework package lives under
    [/opt/packages/framework-mbed]. *)

Module Demo.
Import Adapter.

Definition framework : string := "/opt/packages/framework-mbed".
Definition adapter : Adapter :=
  mkAdapter ["src"] ".pio/build/k64f" "K64F" framework None None "GCC_ARM".
Definition unknown_target_adapter : Adapter :=
  mkAdapter ["src"] ".pio/build/k64f" "NOT_A_TARGET" framework None None "GCC_ARM".

Definition target_map (t : string) : option unit :=
  if String.eqb t "K64F" then Some tt else None.
Definition profiles_present (_ : string) : bool := true.
Definition profiles_absent (_ : string) : bool := false.
Definition load_profile (_ : string) : unit := tt.

Definition toolchain : Toolchain := mkToolchain [] ["m"] ["FOO"] false [] "K64F".
Definition prepare (_ : list string) (_ : string) (_ : unit) (_ : string)
  (_ : option string) (_ : list unit) (_ : option (list string)) : Toolchain :=
  toolchain.

Definition resources : Resources :=
  mkResources [] ["../framework-mbed/drivers/uart.c"; "../framework-mbed/main.c"] []
    ["../framework-mbed/drivers"] (Some "../framework-mbed/targets/K64F.ld") []
    ["../framework-mbed/targets/libfoo.a"] [] [] [].
Definition empty_resources : Resources :=
  mkResources [] [] [] [] None [] [] [] [] [].
Definition scan (_ : list string) (_ : Toolchain) : Resources := resources.
Definition scan_empty (_ : list string) (_ : Toolchain) : Resources := empty_resources.
Definition relpath (s : string) : string := s.

Definition extract (a : Adapter) (isf : string -> bool)
    (sc : list string -> Toolchain -> Resources) : M ProjectInfo :=
  extract_project_info a unit unit target_map isf load_profile prepare sc relpath false.

Definition region (name : string) (active : bool) : Region :=
  mkRegion name 0 1024 active None.
Definition regions_toolchain : Toolchain :=
  mkToolchain [] [] [] true [region "bootloader" false; region "application" true] "K64F".
Definition update_filename (fw tgt : string) : string := tgt ++ "_update.bin".

End Demo.

(** ** [needs_merging] *)

Module AdapterMore.
Import Adapter.

Definition needs_merging (tc : Toolchain) : bool := config_has_regions tc.

End AdapterMore.

(** ** The SCons script [mbed.py]

    The module-level code of the script is modelled by the functions it
    runs: [get_dynamic_manifest], [process_global_lib], the conversion of
    the variant's symbols into [CPPDEFINES] and the merging of the library
    dictionaries.  Symbols are modelled as byte strings, and [isdigit] and
    [int] accept only the ASCII digits; the symbols the script reads come
    from [json.load] as Python 2 [unicode] strings, whose [isdigit] also
    accepts other Unicode digits, and those symbols are outside this
    model. *)

Module Mbed.
Import Py OsPath.

Inductive Exn := TypeError | AttributeError.

Inductive Result (A : Type) :=
| Ok (a : A)
| Err (e : Exn).
Arguments Ok {A}. Arguments Err {A}.

(** A library configuration of the variant JSON: a dictionary whose values
    read by the script are the directory [dir] and lists of strings; keys
    the script does not read are kept by name only, for the truthiness of
    the dictionary. *)
Record LibConfig := mkLibConfig {
  lc_dir : option string;
  lc_inc_dirs : option (list string);
  lc_c_sources : option (list string);
  lc_s_sources : option (list string);
  lc_cpp_sources : option (list string);
  lc_other_keys : list string
}.

(** [not lib_config]: the dictionary has no key. *)
Definition lib_config_empty (c : LibConfig) : bool :=
  match lc_dir c, lc_inc_dirs c, lc_c_sources c, lc_s_sources c,
        lc_cpp_sources c, lc_other_keys c with
  | None, None, None, None, None, [] => true
  | _, _, _, _, _, _ => false
  end.

(** Dictionaries as association lists in insertion order; keys are unique
    in every dictionary built by [dict_set]. *)
Definition Dict (V : Type) := list (string * V).

Fixpoint dict_get {V} (d : Dict V) (k : string) : option V :=
  match d with
  | [] => None
  | (k', v) :: d' => if String.eqb k k' then Some v else dict_get d' k
  end.

(** [d[k] = v]: an existing key keeps its position, a new key goes last. *)
Fixpoint dict_set {V} (d : Dict V) (k : string) (v : V) : Dict V :=
  match d with
  | [] => [(k, v)]
  | (k', v') :: d' =>
      if String.eqb k k' then (k', v) :: d' else (k', v') :: dict_set d' k v
  end.

(** [d1.update(d2)] *)
Definition dict_update {V} (d1 d2 : Dict V) : Dict V :=
  fold_left (fun d kv => dict_set d (fst kv) (snd kv)) d2 d1.

(** [libs = mbed_config.get("libs").copy()] followed by the updates with
    [components], [features] and [frameworks]. *)
Definition merge_libs (libs components features frameworks : Dict LibConfig)
    : Dict LibConfig :=
  dict_update (dict_update (dict_update libs components) features) frameworks.

(** *** [get_dynamic_manifest] *)

Record Manifest := mkManifest {
  mf_name : string;
  mf_flags : list string;
  mf_srcFilter : list string;
  mf_libArchive : bool;
  mf_libLDFMode : string;
  mf_dependencies : option (list (string * string))
}.

(** [d.replace("\\", "/")] *)
Fixpoint replace_backslash (s : string) : string :=
  match s with
  | EmptyString => EmptyString
  | String c s' =>
      String (if Ascii.eqb c bs_char then sep_char else c) (replace_backslash s')
  end.

(** ['-I "%s"' % d] *)
Definition include_flag (d : string) : string := "-I " ++ dq ++ d ++ dq.

(** [" +<%s>" % f] *)
Definition src_filter_entry (f : string) : string := " +<" ++ f ++ ">".

(** [config.get(k)] used as a list: iterating or adding [None] raises
    [TypeError]. *)
Definition get_list (v : option (list string)) : Result (list string) :=
  match v with Some l => Ok l | None => Err TypeError end.

Definition get_dynamic_manifest (name : string) (config : LibConfig)
    (extra_inc_dirs : list string) : Result Manifest :=
  match get_list (lc_inc_dirs config) with
  | Err e => Err e
  | Ok inc_dirs =>
      let flags := (["-I.."] ++ map include_flag inc_dirs ++
                    map (fun d => include_flag (replace_backslash d)) extra_inc_dirs)%list in
      match get_list (lc_c_sources config), get_list (lc_s_sources config),
            get_list (lc_cpp_sources config) with
      | Ok cs, Ok ss, Ok cpps =>
          let src_files := (cs ++ ss ++ cpps)%list in
          let src_filter := ("-<*>" :: map src_filter_entry src_files)%list in
          let flags :=
            if String.eqb name "netsocket"
            then (flags ++ ["-DMBED_CONF_EVENTS_PRESENT"])%list else flags in
          let deps :=
            if String.eqb name "netsocket"
            then Some [("mbed-lwipstack", "*"); ("mbed-events", "*")] else None in
          let deps :=
            if String.eqb name "mbed-client-randlib"
            then Some [("mbed-nanostack-interface", "*")] else deps in
          let deps := if String.eqb name "nfc" then Some [("mbed-events", "*")] else deps in
          Ok (mkManifest ("mbed-" ++ name) flags src_filter false "deep+" deps)
      | _, _, _ => Err TypeError
      end
  end.

(** *** [process_global_lib] *)

(** The construction variables of the SCons environment that
    [process_global_lib] appends to. *)
Record Env := mkEnv { CPPPATH : list string; LIB_DEPS : list string }.

Definition env_append (env : Env) (cpppath lib_deps : list string) : Env :=
  mkEnv (CPPPATH env ++ cpppath) (LIB_DEPS env ++ lib_deps).

(** Python 2's [posixpath.join(a, None, f)] calls [None.startswith]. *)
Definition join_dir (framework_dir : string) (dir : option string) (f : string)
    : Result string :=
  match dir with
  | Some d => Ok (join (join framework_dir d) f)
  | None => Err AttributeError
  end.

Fixpoint map_result {A B} (g : A -> Result B) (l : list A) : Result (list B) :=
  match l with
  | [] => Ok []
  | x :: l' =>
      match g x with
      | Err e => Err e
      | Ok y => match map_result g l' with Err e => Err e | Ok ys => Ok (y :: ys) end
      end
  end.

Definition process_global_lib (FRAMEWORK_DIR : string) (env : Env)
    (libname : string) (lib_configs : Dict LibConfig) : Result Env :=
  match libname, lib_configs with
  | EmptyString, _ | _, [] => Ok env
  | _, _ =>
      match dict_get lib_configs libname with
      | None => Ok env
      | Some lib_config =>
          if lib_config_empty lib_config then Ok env
          else
            match get_list (lc_inc_dirs lib_config) with
            | Err e => Err e
            | Ok inc_dirs =>
                match map_result (join_dir FRAMEWORK_DIR (lc_dir lib_config)) inc_dirs with
                | Err e => Err e
                | Ok lib_includes =>
                    Ok (env_append env lib_includes ["mbed-" ++ libname])
                end
            end
      end
  end.

(** *** Symbols of the variant as [CPPDEFINES] *)

Inductive CppDefine :=
| DefPlain (s : string)
| DefValue (name : string) (value : N).

(** [s.split("=", 1)]: [None] when there is no ["="]. *)
Fixpoint split_eq (s : string) : option (string * string) :=
  match s with
  | EmptyString => None
  | String c s' =>
      if Ascii.eqb c "="%char then Some (EmptyString, s')
      else match split_eq s' with
           | Some (n, v) => Some (String c n, v)
           | None => None
           end
  end.

Definition is_digit (c : ascii) : bool :=
  (N.leb 48 (N_of_ascii c) && N.leb (N_of_ascii c) 57)%bool.

(** [s.isdigit()]: non-empty and only digits. *)
Definition isdigit (s : string) : bool :=
  match s with
  | EmptyString => false
  | _ => forallb is_digit (list_ascii_of_string s)
  end.

(** [int(s)] on a string of digits. *)
Definition py_int (s : string) : N :=
  fold_left (fun acc c => acc * 10 + (N_of_ascii c - 48))%N (list_ascii_of_string s) 0%N.

Definition cppdefine_of_symbol (s : string) : CppDefine :=
  let s := escape_quotes s in
  match split_eq s with
  | Some (name, value) => if isdigit value then DefValue name (py_int value) else DefPlain s
  | None => DefPlain s
  end.

Definition cppdefines_of_symbols (symbols : list string) : list CppDefine :=
  map cppdefine_of_symbol symbols.

(** *** Library builders for the dependency finder

    [for lib, lib_config in libs.items()]: an empty configuration is
    skipped; otherwise [join(FRAMEWORK_DIR, lib_config.get("dir"))] is
    evaluated first (Python 2 raises [AttributeError] on a missing [dir]),
    then the manifest, with no extra include directory.  A builder is the
    pair of its directory and its manifest. *)
Fixpoint lib_builders (FRAMEWORK_DIR : string) (libs : Dict LibConfig)
    : Result (list (string * Manifest)) :=
  match libs with
  | [] => Ok []
  | (lib, lib_config) :: libs' =>
      if lib_config_empty lib_config then lib_builders FRAMEWORK_DIR libs'
      else
        match lc_dir lib_config with
        | None => Err AttributeError
        | Some d =>
            match get_dynamic_manifest lib lib_config [] with
            | Err e => Err e
            | Ok m =>
                match lib_builders FRAMEWORK_DIR libs' with
                | Err e => Err e
                | Ok bs => Ok ((join FRAMEWORK_DIR d, m) :: bs)
                end
            end
        end
  end.

End Mbed.

(** ** Concrete inputs for the further properties *)

Module ExtraDemo.
Import Py Adapter Mbed.

(** The framework root given with a trailing separator. *)
Definition adapter_trailing : Adapter :=
  mkAdapter ["src"] ".pio/build/k64f" "K64F" (Demo.framework ++ "/") None None "GCC_ARM".
(** No source path. *)
Definition adapter_no_src : Adapter :=
  mkAdapter [] ".pio/build/k64f" "K64F" Demo.framework None None "GCC_ARM".

(** The [netsocket] library, with an extra include directory written with
    a backslash. *)
Definition netsocket_config : LibConfig :=
  mkLibConfig (Some "features/netsocket") (Some ["."]) (Some ["nsapi_dns.c"]) (Some [])
    (Some ["Socket.cpp"]) [].
Definition lwip_dir : string := ("features" ++ bs ++ "lwipstack")%string.

Definition events_config : LibConfig :=
  mkLibConfig (Some "events") (Some ["."; "equeue"]) (Some []) (Some []) (Some []) [].
Definition rtos_lib_config : LibConfig :=
  mkLibConfig (Some "rtos") (Some ["."]) (Some []) (Some []) (Some []) [].
Definition rtos_feature_config : LibConfig :=
  mkLibConfig (Some "features/rtos") (Some ["."]) (Some []) (Some []) (Some []) [].

End ExtraDemo.

(** * Properties *)

(** ** The order on strings and insertion sort *)

Module SortFacts.
Import PySort.

Lemma ascii_compare_N (x y : ascii) :
  Ascii.compare x y = N.compare (N_of_ascii x) (N_of_ascii y).
Proof. reflexivity. Qed.

Lemma str_compare_lt_trans (a b c : string) :
  String.compare a b = Lt -> String.compare b c = Lt -> String.compare a c = Lt.
Proof.
  revert b c; induction a as [|x a IH]; intros [|y b] [|z c]; simpl;
    try discriminate; auto.
  rewrite !ascii_compare_N.
  destruct (N.compare (N_of_ascii x) (N_of_ascii y)) eqn:Exy;
  destruct (N.compare (N_of_ascii y) (N_of_ascii z)) eqn:Eyz;
  try discriminate; intros H1 H2.
  - rewrite N.compare_eq_iff in Exy, Eyz.
    rewrite Exy, Eyz, N.compare_refl. eauto.
  - rewrite N.compare_eq_iff in Exy. rewrite Exy, Eyz. reflexivity.
  - rewrite N.compare_eq_iff in Eyz. rewrite <- Eyz, Exy. reflexivity.
  - rewrite N.compare_lt_iff in Exy, Eyz.
    assert (N.compare (N_of_ascii x) (N_of_ascii z) = Lt) as ->
      by (apply N.compare_lt_iff; lia). reflexivity.
Qed.

Lemma str_compare_refl (a : string) : String.compare a a = Eq.
Proof.
  induction a as [|x a IH]; simpl; auto.
  rewrite ascii_compare_N, N.compare_refl. exact IH.
Qed.

Lemma str_le_trans (a b c : string) : str_le a b -> str_le b c -> str_le a c.
Proof.
  unfold str_le.
  destruct (String.compare a b) eqn:Eab; destruct (String.compare b c) eqn:Ebc;
    try congruence; intros _ _.
  - apply String.compare_eq_iff in Eab, Ebc. subst.
    rewrite str_compare_refl. discriminate.
  - apply String.compare_eq_iff in Eab. subst. rewrite Ebc. discriminate.
  - apply String.compare_eq_iff in Ebc. subst. rewrite Eab. discriminate.
  - rewrite (str_compare_lt_trans a b c Eab Ebc). discriminate.
Qed.

Lemma str_le_antisym (a b : string) : str_le a b -> str_le b a -> a = b.
Proof.
  unfold str_le. rewrite (String.compare_antisym b a).
  destruct (String.compare a b) eqn:E; simpl; try congruence.
  intros _ _. apply String.compare_eq_iff. exact E.
Qed.

Lemma leb_str_le (a b : string) : String.leb a b = true <-> str_le a b.
Proof.
  unfold String.leb, str_le. destruct (String.compare a b); split; congruence.
Qed.

Lemma leb_false_str_le (a b : string) : String.leb a b = false -> str_le b a.
Proof.
  unfold String.leb, str_le. rewrite (String.compare_antisym b a).
  destruct (String.compare a b); simpl; congruence.
Qed.

Lemma insert_perm (x : string) (l : list string) : Permutation (x :: l) (insert x l).
Proof.
  induction l as [|y l IH]; simpl; auto.
  destruct (String.leb x y); auto.
  eapply perm_trans; [apply perm_swap|]. auto.
Qed.

Lemma sort_perm (l : list string) : Permutation l (sort l).
Proof.
  induction l as [|x l IH]; simpl; auto.
  eapply perm_trans; [apply perm_skip, IH|]. apply insert_perm.
Qed.

Lemma insert_sorted (x : string) (l : list string) :
  Sorted str_le l -> Sorted str_le (insert x l).
Proof.
  induction 1 as [|y l Hs IH Hhd]; simpl; auto.
  destruct (String.leb x y) eqn:E.
  - constructor; auto. constructor. apply leb_str_le; exact E.
  - apply leb_false_str_le in E.
    constructor; auto.
    destruct l as [|z l]; simpl.
    + constructor. exact E.
    + inversion Hhd; subst. destruct (String.leb x z); constructor; auto.
Qed.

Lemma sort_sorted (l : list string) : Sorted str_le (sort l).
Proof. induction l; simpl; auto using insert_sorted. Qed.

Lemma sorted_perm_unique (l1 l2 : list string) :
  Sorted str_le l1 -> Sorted str_le l2 -> Permutation l1 l2 -> l1 = l2.
Proof.
  intros H1 H2. apply Sorted_StronglySorted in H1; [|exact str_le_trans].
  apply Sorted_StronglySorted in H2; [|exact str_le_trans].
  revert l2 H2. induction H1 as [|x l1 Hs1 IH Hall1]; intros l2 H2 Hp.
  - symmetry. apply Permutation_nil. exact Hp.
  - destruct H2 as [|y l2 Hs2 Hall2].
    + apply Permutation_sym, Permutation_nil in Hp. discriminate.
    + assert (x = y) as <-.
      { assert (Hx : In x (y :: l2)) by (eapply Permutation_in; [exact Hp|left; auto]).
        assert (Hy : In y (x :: l1))
          by (eapply Permutation_in; [apply Permutation_sym; exact Hp|left; auto]).
        destruct Hx as [<-|Hx]; [reflexivity|].
        destruct Hy as [<-|Hy]; [reflexivity|].
        apply str_le_antisym.
        - rewrite Forall_forall in Hall1. apply Hall1. exact Hy.
        - rewrite Forall_forall in Hall2. apply Hall2. exact Hx. }
      f_equal. apply IH; auto. eapply Permutation_cons_inv. exact Hp.
Qed.

Lemma sort_perm_eq (l l' : list string) : Permutation l l' -> sort l = sort l'.
Proof.
  intros Hp. apply sorted_perm_unique; try apply sort_sorted.
  eapply perm_trans; [apply Permutation_sym, sort_perm|].
  eapply perm_trans; [exact Hp|apply sort_perm].
Qed.

Lemma sort_in (x : string) (l : list string) : In x (sort l) <-> In x l.
Proof.
  split; intros H.
  - eapply Permutation_in; [apply Permutation_sym, sort_perm|exact H].
  - eapply Permutation_in; [apply sort_perm|exact H].
Qed.

End SortFacts.

(** ** Strings *)

Module StringFacts.
Import Py OsPath.

Lemma contains_find (sub s : string) :
  contains sub s = match find sub s with Some _ => true | None => false end.
Proof.
  induction s as [|c s IH]; unfold contains, find; fold contains find.
  - destruct (String.prefix sub EmptyString); reflexivity.
  - destruct (String.prefix sub (String c s)); auto.
    rewrite IH. destruct (find sub s); reflexivity.
Qed.

Lemma prefix_empty (t : string) : String.prefix EmptyString t = true.
Proof. destruct t; reflexivity. Qed.

Lemma prefix_cons (a b : ascii) (m t : string) :
  String.prefix (String a m) (String b t) = (Ascii.eqb a b && String.prefix m t)%bool.
Proof.
  simpl. destruct (ascii_dec a b) as [->|Hne].
  - rewrite Ascii.eqb_refl. reflexivity.
  - apply Ascii.eqb_neq in Hne. rewrite Hne. reflexivity.
Qed.

Lemma prefix_contains (m t : string) : String.prefix m t = true -> contains m t = true.
Proof. destruct t; simpl; intros ->; reflexivity. Qed.

Lemma prefix_escape (m t : string) :
  has_char dq_char m = false -> has_char bs_char m = false ->
  String.prefix m (escape_quotes t) = true -> String.prefix m t = true.
Proof.
  revert t; induction m as [|a m IH]; intros t Hq Hb Hp.
  - apply prefix_empty.
  - cbn [has_char] in Hq, Hb. apply orb_false_iff in Hq as [Hq1 Hq2].
    apply orb_false_iff in Hb as [Hb1 Hb2].
    destruct t as [|c t]; [discriminate|].
    cbn [escape_quotes] in Hp. destruct (Ascii.eqb c dq_char) eqn:Ec.
    + rewrite prefix_cons, Ascii.eqb_sym, Hb1 in Hp. discriminate.
    + rewrite prefix_cons in Hp. apply andb_true_iff in Hp as [Hac Hp].
      rewrite prefix_cons, Hac. apply IH; auto.
Qed.

Lemma contains_escape (m s : string) :
  m <> EmptyString -> has_char dq_char m = false -> has_char bs_char m = false ->
  contains m (escape_quotes s) = true -> contains m s = true.
Proof.
  intros Hne Hq Hb. induction s as [|c s IH]; intros Hc.
  - exact Hc.
  - destruct m as [|a m']; [congruence|].
    pose proof Hq as Hq0. pose proof Hb as Hb0.
    cbn [has_char] in Hq, Hb. apply orb_false_iff in Hq as [Hq1 _].
    apply orb_false_iff in Hb as [Hb1 _].
    cbn [escape_quotes contains] in Hc |- *. destruct (Ascii.eqb c dq_char) eqn:Ec.
    + cbn [contains] in Hc.
      rewrite !prefix_cons, (Ascii.eqb_sym a bs_char), Hb1,
        (Ascii.eqb_sym a dq_char), Hq1 in Hc. cbn [andb] in Hc.
      rewrite (IH Hc). destruct (String.prefix (String a m') (String c s)); reflexivity.
    + destruct (String.prefix (String a m') (String c (escape_quotes s))) eqn:Ep.
      * assert (Hp : String.prefix (String a m') (String c s) = true).
        { apply prefix_escape; auto.
          cbn [escape_quotes]. rewrite Ec. exact Ep. }
        rewrite Hp. reflexivity.
      * cbn [contains] in Hc. rewrite Ep in Hc.
        rewrite (IH Hc). destruct (String.prefix (String a m') (String c s)); reflexivity.
Qed.

Lemma escape_quotes_escaped (s : string) (prev : option ascii) :
  SpecPreds.quotes_escaped_from prev (escape_quotes s) = true.
Proof.
  revert prev; induction s as [|c s IH]; intros prev; [reflexivity|].
  cbn [escape_quotes]. destruct (Ascii.eqb c dq_char) eqn:Ec;
    cbn [SpecPreds.quotes_escaped_from].
  - rewrite IH. reflexivity.
  - rewrite Ec, IH. reflexivity.
Qed.

Lemma basename_no_sep (p : string) : has_char sep_char (basename p) = false.
Proof.
  induction p as [|c p IH]; [reflexivity|]. cbn [basename].
  destruct (has_char sep_char p) eqn:Hp; auto.
  destruct (Ascii.eqb c sep_char) eqn:Ec; auto.
  cbn [has_char]. rewrite Ascii.eqb_sym, Ec, Hp. reflexivity.
Qed.

Lemma contains_cons_r (m : string) (c : ascii) (s : string) :
  contains m s = true -> contains m (String c s) = true.
Proof. intros H. cbn [contains]. rewrite H. destruct (String.prefix m (String c s)); reflexivity. Qed.

Lemma prefix_escape_fwd (m t : string) :
  has_char dq_char m = false -> String.prefix m t = true ->
  String.prefix m (escape_quotes t) = true.
Proof.
  revert t; induction m as [|x m IH]; intros t Hm Hp; [apply prefix_empty|].
  destruct t as [|c t]; [discriminate|].
  cbn [has_char] in Hm. apply orb_false_iff in Hm as [Hx Hm].
  rewrite prefix_cons in Hp. apply andb_true_iff in Hp as [Hxc Hp].
  apply Ascii.eqb_eq in Hxc. subst x.
  cbn [escape_quotes]. rewrite Ascii.eqb_sym, Hx.
  rewrite prefix_cons, Ascii.eqb_refl. apply IH; assumption.
Qed.

Lemma contains_escape_fwd (m s : string) :
  has_char dq_char m = false -> contains m s = true -> contains m (escape_quotes s) = true.
Proof.
  intros Hm. induction s as [|c s IH]; intros Hc; [exact Hc|].
  cbn [contains] in Hc. destruct (String.prefix m (String c s)) eqn:Ep.
  - apply prefix_contains, prefix_escape_fwd; assumption.
  - cbn [escape_quotes]. destruct (Ascii.eqb c dq_char);
      repeat apply contains_cons_r; apply IH; exact Hc.
Qed.

End StringFacts.

(** ** Paths *)

Module PathFacts.
Import Py OsPath.

Lemma prefix_self_app (b x : string) : String.prefix b (b ++ x) = true.
Proof.
  induction b as [|a b IH]; [apply StringFacts.prefix_empty|].
  cbn [append]. rewrite StringFacts.prefix_cons, Ascii.eqb_refl. exact IH.
Qed.

Lemma prefix_over_sep (b u v : string) :
  has_char sep_char b = false ->
  String.prefix b (u ++ String sep_char v) = true -> String.prefix b u = true.
Proof.
  revert u; induction b as [|a b IH]; intros u Hb Hp.
  - apply StringFacts.prefix_empty.
  - cbn [has_char] in Hb. apply orb_false_iff in Hb as [Ha Hb].
    destruct u as [|c u]; cbn [append] in Hp; rewrite StringFacts.prefix_cons in Hp.
    + rewrite Ascii.eqb_sym, Ha in Hp. discriminate.
    + apply andb_true_iff in Hp as [Hac Hp].
      rewrite StringFacts.prefix_cons, Hac. apply IH; auto.
Qed.

Lemma contains_cons_false (b : string) (c : ascii) (u : string) :
  contains b (String c u) = false ->
  String.prefix b (String c u) = false /\ contains b u = false.
Proof.
  cbn [contains]. destruct (String.prefix b (String c u)); auto; discriminate.
Qed.

Lemma find_prefix (b s : string) : String.prefix b s = true -> find b s = Some 0.
Proof. destruct s; cbn [find]; intros ->; reflexivity. Qed.

Lemma find_not_prefix (b : string) (c : ascii) (s : string) :
  String.prefix b (String c s) = false -> find b (String c s) = option_map S (find b s).
Proof. cbn [find]. intros ->. reflexivity. Qed.

Lemma find_first_component (b c1 x : string) :
  b <> EmptyString -> has_char sep_char b = false -> contains b c1 = false ->
  find b (c1 ++ String sep_char (b ++ x)) = Some (String.length c1 + 1).
Proof.
  intros Hne Hb. induction c1 as [|c c1 IH]; intros Hc.
  - cbn [append String.length].
    rewrite find_not_prefix.
    + rewrite find_prefix by apply prefix_self_app. reflexivity.
    + destruct b as [|a b']; [congruence|].
      rewrite StringFacts.prefix_cons.
      cbn [has_char] in Hb. apply orb_false_iff in Hb as [Ha _].
      rewrite Ascii.eqb_sym, Ha. reflexivity.
  - apply contains_cons_false in Hc as [Hp Hc].
    cbn [append String.length].
    rewrite find_not_prefix.
    + rewrite IH by exact Hc. reflexivity.
    + destruct (String.prefix b (String c (c1 ++ String sep_char (b ++ x)))) eqn:E;
        [|reflexivity].
      apply (prefix_over_sep b (String c c1) (b ++ x)) in E; [congruence|exact Hb].
Qed.

Lemma drop_app (u v : string) (n : nat) : drop (String.length u + n) (u ++ v) = drop n v.
Proof. induction u as [|c u IH]; [reflexivity|]. exact IH. Qed.

Lemma falsy_app_cons (u v : string) (c : ascii) : falsy (Some (u ++ String c v)) = false.
Proof. destruct u; reflexivity. Qed.

Lemma str_length_app (u w : string) :
  String.length (u ++ w) = String.length u + String.length w.
Proof. induction u as [|c u IH]; [reflexivity|]. cbn [append String.length]. rewrite IH. reflexivity. Qed.

Lemma app_same_length (u u0 x y : string) :
  String.length u = String.length u0 -> (u ++ x)%string = (u0 ++ y)%string -> u = u0 /\ x = y.
Proof.
  revert u0; induction u as [|c u IH]; intros u0 Hl H; destruct u0 as [|c0 u0];
    cbn [String.length] in Hl; try discriminate.
  - split; [reflexivity|exact H].
  - cbn [append] in H. injection H as <- H. injection Hl as Hl.
    destruct (IH u0 Hl H) as [-> ->]. split; reflexivity.
Qed.

Lemma prefix_split (b s : string) : String.prefix b s = true -> exists w, s = (b ++ w)%string.
Proof.
  revert s; induction b as [|x b IH]; intros s H.
  - exists s. reflexivity.
  - destruct s as [|c s]; [discriminate|].
    rewrite StringFacts.prefix_cons in H. apply andb_true_iff in H as [Hx H].
    apply Ascii.eqb_eq in Hx. subst c. destruct (IH s H) as [w ->]. exists w. reflexivity.
Qed.

Lemma find_some_split (b s : string) (i : nat) :
  find b s = Some i -> exists u v, s = (u ++ b ++ v)%string /\ String.length u = i.
Proof.
  revert i; induction s as [|c s IH]; intros i H; cbn [find] in H.
  - destruct (String.prefix b EmptyString) eqn:E; [|discriminate].
    injection H as <-. destruct (prefix_split _ _ E) as [w Hw].
    exists EmptyString, w. split; [exact Hw|reflexivity].
  - destruct (String.prefix b (String c s)) eqn:E.
    + injection H as <-. destruct (prefix_split _ _ E) as [w Hw].
      exists EmptyString, w. split; [exact Hw|reflexivity].
    + destruct (find b s) as [n|] eqn:F; cbn [option_map] in H; [|discriminate].
      injection H as <-. destruct (IH n eq_refl) as [u [v [-> Hl]]].
      exists (String c u), v. split; [reflexivity|]. cbn [String.length]. rewrite Hl. reflexivity.
Qed.

Lemma find_first (b u v : string) :
  exists i, find b (u ++ b ++ v) = Some i /\ i <= String.length u.
Proof.
  induction u as [|c u IH].
  - exists 0. cbn [append]. split; [apply find_prefix; apply prefix_self_app|apply Nat.le_0_l].
  - cbn [append]. destruct (String.prefix b (String c (u ++ b ++ v))) eqn:E.
    + exists 0. split; [apply find_prefix, E|apply Nat.le_0_l].
    + destruct IH as [i [Hi Hle]]. exists (S i). rewrite find_not_prefix by exact E.
      rewrite Hi. split; [reflexivity|cbn [String.length]; lia].
Qed.

End PathFacts.

(** ** [fix_path] and [fix_paths] *)

Module PathClaims.
Import Py OsPath Adapter.

Lemma falsy_some (x : string) : falsy (Some x) = String.eqb x EmptyString.
Proof. destruct x; reflexivity. Qed.

Lemma fix_paths_eq (a : Adapter) (l : list (option string)) :
  fix_paths a l =
  filter (fun s => negb (String.eqb s EmptyString)) (map (fix_path a) l).
Proof.
  induction l as [|p l IH]; [reflexivity|].
  cbn [fix_paths map filter]. rewrite falsy_some, IH.
  destruct (String.eqb (fix_path a p) EmptyString); reflexivity.
Qed.

Lemma fix_paths_nonempty (a : Adapter) (l : list (option string)) :
  ~ In EmptyString (fix_paths a l).
Proof.
  rewrite fix_paths_eq. intros H. apply filter_In in H as [_ H].
  rewrite String.eqb_refl in H. discriminate.
Qed.

Section Extract.
Context {TargetInfo Profile : Type}.
Variable TARGET_MAP : string -> option TargetInfo.
Variable isfile : string -> bool.
Variable load_json : string -> Profile.
Variable prepare_toolchain_fn :
  list string -> string -> TargetInfo -> string -> option string ->
  list Profile -> option (list string) -> Toolchain.
Variable scan_with_toolchain_fn : list string -> Toolchain -> Resources.
Variable relpath : string -> string.

Lemma extract_ok_inv (a : Adapter) (gc : bool) (tr tr' : list Event) (r : ProjectInfo) :
  extract_project_info a TargetInfo Profile TARGET_MAP isfile load_json
    prepare_toolchain_fn scan_with_toolchain_fn relpath gc tr = (Ret r, tr') ->
  exists tc, r = project_info a tc (scan_with_toolchain_fn (map relpath (src_paths a)) tc).
Proof.
  unfold extract_project_info, get_target_config, get_build_profile,
    prepare_toolchain, scan_with_toolchain, bind, ret, emit, sys_exit, raise,
    stderr_write.
  destruct (TARGET_MAP (target a)); [|discriminate].
  destruct (isfile _); cbn [negb]; [|discriminate].
  destruct (map relpath (src_paths a)) as [|s0 src] eqn:Esrc; [discriminate|].
  destruct gc; intros H; injection H as <- _; eexists; reflexivity.
Qed.

Lemma extract_ok_full (a : Adapter) (gc : bool) (tr tr' : list Event) (r : ProjectInfo) :
  extract_project_info a TargetInfo Profile TARGET_MAP isfile load_json
    prepare_toolchain_fn scan_with_toolchain_fn relpath gc tr = (Ret r, tr') ->
  exists ti, TARGET_MAP (target a) = Some ti /\
    let src := map relpath (src_paths a) in
    let tc := prepare_toolchain_fn src (build_path a) ti (toolchain_name a) (app_config a)
                [load_json (join (join (join (framework_path a) "tools") "profiles")
                              (BUILD_PROFILE ++ ".json"))] (ignore_dirs a) in
    r = project_info a tc (scan_with_toolchain_fn src tc).
Proof.
  unfold extract_project_info, get_target_config, get_build_profile,
    prepare_toolchain, scan_with_toolchain, bind, ret, emit, sys_exit, raise,
    stderr_write.
  destruct (TARGET_MAP (target a)) as [ti|]; [|discriminate].
  destruct (isfile _); cbn [negb]; [|discriminate].
  destruct (map relpath (src_paths a)) as [|s0 src] eqn:Esrc; [discriminate|].
  destruct gc; intros H; injection H as <- _; exists ti; (split; [reflexivity|]);
    cbv zeta; reflexivity.
Qed.

(** Claim C1 (amended).  [fix_path] does not count components: it drops
    everything up to and including the first occurrence of the basename [B]
    of the framework root, and the one character after it, and returns the
    other paths unchanged.  So for a path [c1/B/rest] whose first component
    [c1] does not contain [B], the result is [rest].  Every path-bearing
    field of a successful [extract_project_info] is [fix_paths] of the
    matching list that the scanner returned for the prepared toolchain;
    [libs] holds the basenames of [fix_paths] of the scanned libraries. *)
Theorem fix_path_strips_through_framework_dir (a : Adapter) :
  (forall c1 rest : string,
     basename (framework_path a) <> EmptyString ->
     contains (basename (framework_path a)) c1 = false ->
     fix_path a (Some (c1 ++ "/" ++ basename (framework_path a) ++ "/" ++ rest)) = rest) /\
  (forall p u v : string,
     p = (u ++ basename (framework_path a) ++ v)%string ->
     (forall u' v', p = (u' ++ basename (framework_path a) ++ v')%string ->
        String.length u <= String.length u') ->
     fix_path a (Some p) = drop 1 v) /\
  (forall p : string,
     contains (basename (framework_path a)) p = false -> fix_path a (Some p) = p) /\
  (forall gc tr tr' r, extract_project_info a TargetInfo Profile TARGET_MAP isfile load_json
       prepare_toolchain_fn scan_with_toolchain_fn relpath gc tr = (Ret r, tr') ->
     exists ti, TARGET_MAP (target a) = Some ti /\
     let src := map relpath (src_paths a) in
     let tc := prepare_toolchain_fn src (build_path a) ti (toolchain_name a) (app_config a)
                 [load_json (join (join (join (framework_path a) "tools") "profiles")
                               (BUILD_PROFILE ++ ".json"))] (ignore_dirs a) in
     let res := scan_with_toolchain_fn src tc in
       src_files r = fix_paths a (map Some (s_sources res ++ c_sources res ++ cpp_sources res)) /\
       inc_dirs r = fix_paths a (map Some (res_inc_dirs res)) /\
       ldscript r = fix_paths a [linker_script res] /\
       objs r = fix_paths a (map Some (objects res)) /\
       libs r = map basename (fix_paths a (map Some (libraries res))) /\
       lib_paths r = fix_paths a (map Some (lib_dirs res)) /\
       hex r = fix_paths a (map Some (hex_files res)) /\
       bin r = fix_paths a (map Some (bin_files res))).
Proof.
  split; [|split; [|split]].
  - intros c1 rest Hne Hc.
    set (b := basename (framework_path a)) in *.
    assert (Hb : has_char sep_char b = false) by apply StringFacts.basename_no_sep.
    unfold fix_path. fold b.
    change ("/" ++ b ++ "/" ++ rest) with (String sep_char (b ++ "/" ++ rest)).
    rewrite PathFacts.falsy_app_cons. cbv beta iota zeta.
    rewrite StringFacts.contains_find.
    unfold index.
    rewrite (PathFacts.find_first_component b c1 ("/" ++ rest) Hne Hb Hc).
    replace (String.length c1 + 1 + String.length b)
      with (String.length c1 + (1 + String.length b)) by lia.
    rewrite PathFacts.drop_app.
    change (drop (1 + String.length b) (String sep_char (b ++ "/" ++ rest)))
      with (drop (String.length b) (b ++ "/" ++ rest)).
    rewrite <- (Nat.add_0_r (String.length b)), PathFacts.drop_app.
    reflexivity.
  - intros p u v Hp Hmin.
    set (b := basename (framework_path a)) in *.
    destruct (PathFacts.find_first b u v) as [i [Hf Hi]]. rewrite <- Hp in Hf.
    destruct (PathFacts.find_some_split _ _ _ Hf) as [u0 [v0 [Hp0 Hl0]]].
    pose proof (Hmin u0 v0 Hp0) as Hle.
    assert (Hl : String.length u = String.length u0) by lia.
    rewrite Hp in Hp0. apply PathFacts.app_same_length in Hp0 as [<- Hbv]; [|exact Hl].
    apply PathFacts.app_same_length in Hbv as [_ <-]; [|reflexivity].
    unfold fix_path. fold b. destruct (falsy (Some p)) eqn:Ef.
    + destruct p as [|c p]; [|discriminate].
      apply (f_equal String.length) in Hp.
      rewrite !PathFacts.str_length_app in Hp. cbn [String.length] in Hp.
      destruct v; [reflexivity|cbn [String.length] in Hp; lia].
    + cbv beta iota zeta. rewrite StringFacts.contains_find, Hf.
      unfold index. rewrite Hf. rewrite <- Hl0, Hp.
      rewrite PathFacts.drop_app, <- (Nat.add_0_r (String.length b)), PathFacts.drop_app.
      reflexivity.
  - intros p H. destruct p as [|c p]; [reflexivity|].
    unfold fix_path. cbn [falsy]. cbv beta iota zeta. rewrite H. reflexivity.
  - intros gc tr tr' r H.
    apply extract_ok_full in H as [ti [Hti ->]].
    exists ti. split; [exact Hti|]. cbv zeta. repeat split.
Qed.

(** Claim C5 (amended).  [fix_paths] is the list of [fix_path] results with
    the empty strings removed, so no entry on which [fix_path] yields the
    empty string survives and no list it builds holds an empty string; an
    empty input gives an empty output.  In particular none of the fields
    [src_files], [inc_dirs], [ldscript], [objs], [lib_paths], [hex] and
    [bin] of a successful [extract_project_info] holds an empty string. *)
Theorem fix_paths_drops_empty (a : Adapter) :
  (forall l : list (option string),
     fix_paths a l = filter (fun s => negb (String.eqb s EmptyString)) (map (fix_path a) l) /\
     ~ In EmptyString (fix_paths a l)) /\
  fix_paths a [] = [] /\
  (forall gc tr tr' r, extract_project_info a TargetInfo Profile TARGET_MAP isfile load_json
       prepare_toolchain_fn scan_with_toolchain_fn relpath gc tr = (Ret r, tr') ->
     ~ In EmptyString (src_files r) /\ ~ In EmptyString (inc_dirs r) /\
     ~ In EmptyString (ldscript r) /\ ~ In EmptyString (objs r) /\
     ~ In EmptyString (lib_paths r) /\ ~ In EmptyString (hex r) /\
     ~ In EmptyString (bin r)).
Proof.
  split; [|split; [reflexivity|]].
  - intros l. split; [apply fix_paths_eq|apply fix_paths_nonempty].
  - intros gc tr tr' r H. apply extract_ok_inv in H as [tc ->].
    repeat split; apply fix_paths_nonempty.
Qed.

(** Claim C7 (amended).  When the scanner reports no file reference at all
    (every list empty, no linker script), the path-derived fields of the
    result are all the empty list; [syslibs], [build_symbols] and
    [build_flags] come from the toolchain, not from the scanner. *)
Theorem extract_empty_scan (a : Adapter) (gc : bool) (tr tr' : list Event) (r : ProjectInfo) :
  (forall src tc, SpecPreds.no_file_references (scan_with_toolchain_fn src tc) = true) ->
  extract_project_info a TargetInfo Profile TARGET_MAP isfile load_json
       prepare_toolchain_fn scan_with_toolchain_fn relpath gc tr = (Ret r, tr') ->
  src_files r = [] /\ inc_dirs r = [] /\ ldscript r = [] /\ objs r = [] /\
  libs r = [] /\ lib_paths r = [] /\ hex r = [] /\ bin r = [] /\
  exists tc, syslibs r = sys_libs tc /\
             build_symbols r = process_symbols (tc_symbols tc) /\
             build_flags r = tc_flags tc.
Proof.
  intros Hempty H. apply extract_ok_inv in H as [tc ->].
  specialize (Hempty (map relpath (src_paths a)) tc).
  destruct (scan_with_toolchain_fn (map relpath (src_paths a)) tc)
    as [ss cs cpps incs ld ob lb lds hx bn].
  unfold SpecPreds.no_file_references in Hempty. cbn in Hempty.
  destruct ss, cs, cpps, incs, ob, lb, lds, hx, bn; try discriminate.
  cbn [andb] in Hempty.
  unfold project_info; cbn [s_sources c_sources cpp_sources res_inc_dirs
    linker_script objects libraries lib_dirs hex_files bin_files app map].
  repeat split; try reflexivity.
  - cbn [fix_paths]. rewrite falsy_some.
    unfold fix_path. rewrite Hempty. reflexivity.
  - exists tc. repeat split.
Qed.

(** Claim C9.  A path in which the basename of the framework root does not
    occur is returned unchanged, and a falsy path ([None] or the empty
    string) gives the empty string. *)
Theorem fix_path_identity_without_framework_dir (a : Adapter) :
  (forall p : string,
     contains (basename (framework_path a)) p = false -> fix_path a (Some p) = p) /\
  fix_path a None = EmptyString /\
  fix_path a (Some EmptyString) = EmptyString.
Proof.
  split; [|split; reflexivity].
  intros p H. destruct p as [|c p]; [reflexivity|].
  unfold fix_path. cbn [falsy]. cbv beta iota zeta. rewrite H. reflexivity.
Qed.

(** Claim C10 (amended).  Every [libs] entry of a successful
    [extract_project_info] is the basename of a [fix_paths] result of the
    libraries the scanner returned for the prepared toolchain, so it
    contains no path separator. *)
Theorem extract_libs_are_basenames (a : Adapter) (gc : bool) (tr tr' : list Event)
    (r : ProjectInfo) :
  extract_project_info a TargetInfo Profile TARGET_MAP isfile load_json
       prepare_toolchain_fn scan_with_toolchain_fn relpath gc tr = (Ret r, tr') ->
  (exists ti, TARGET_MAP (target a) = Some ti /\
     let src := map relpath (src_paths a) in
     let tc := prepare_toolchain_fn src (build_path a) ti (toolchain_name a) (app_config a)
                 [load_json (join (join (join (framework_path a) "tools") "profiles")
                               (BUILD_PROFILE ++ ".json"))] (ignore_dirs a) in
     libs r = map basename (fix_paths a (map Some (libraries (scan_with_toolchain_fn src tc))))) /\
  (forall x, In x (libs r) -> has_char sep_char x = false).
Proof.
  intros H. apply extract_ok_full in H as [ti [Hti ->]]. split.
  - exists ti. split; [exact Hti|]. reflexivity.
  - intros x Hx. cbn [project_info libs] in Hx.
    apply in_map_iff in Hx as [y [<- _]]. apply StringFacts.basename_no_sep.
Qed.

(** Claim C6 (code defect).  For a target missing from [TARGET_MAP],
    [get_target_config] calls [sys.stderr.write] with two arguments, which
    raises [TypeError] before anything is written: no diagnostic, no
    [sys.exit(1)].  Toolchain preparation and scanning are not reached.  The
    sibling path for a missing profile file writes its one-line message and
    exits with status 1. *)
Theorem extract_unknown_target_raises (a : Adapter) (gc : bool) (tr : list Event) :
  (TARGET_MAP (target a) = None ->
   extract_project_info a TargetInfo Profile TARGET_MAP isfile load_json
       prepare_toolchain_fn scan_with_toolchain_fn relpath gc tr = (Raise TypeError, tr)) /\
  (forall t, TARGET_MAP (target a) = Some t ->
   isfile (join (join (join (framework_path a) "tools") "profiles") "release.json") = false ->
   extract_project_info a TargetInfo Profile TARGET_MAP isfile load_json
       prepare_toolchain_fn scan_with_toolchain_fn relpath gc tr =
     (Exit 1, (tr ++ [EStderr ("Could not find the file with build profiles!" ++ nl)])%list)).
Proof.
  split.
  - intros H. unfold extract_project_info, get_target_config, bind, stderr_write, raise.
    rewrite H. reflexivity.
  - intros t Ht Hf.
    unfold extract_project_info, get_target_config, get_build_profile, bind,
      stderr_write, emit, sys_exit, ret.
    change (isfile (join (join (join (framework_path a) "tools") "profiles")
                         (BUILD_PROFILE ++ ".json")) = false) in Hf.
    rewrite Ht. cbv zeta. rewrite Hf. reflexivity.
Qed.

End Extract.
End PathClaims.

(** ** [process_symbols] *)

Module SymbolClaims.
Import Py Adapter.

Definition symbol_out (s : string) : string :=
  if (contains dq s && contains ".h" s)%bool then escape_quotes s else s.

Lemma loop_eq (l : list string) :
  process_symbols_loop l =
  map symbol_out (filter (fun s => negb (contains timestamp_marker s)) l).
Proof.
  induction l as [|s l IH]; [reflexivity|].
  cbn [process_symbols_loop filter]. rewrite IH.
  unfold symbol_out. destruct (contains timestamp_marker s); [reflexivity|].
  cbn [negb map]. destruct (contains dq s && contains ".h" s)%bool; reflexivity.
Qed.

Lemma loop_perm (l l' : list string) :
  Permutation l l' -> Permutation (process_symbols_loop l) (process_symbols_loop l').
Proof.
  intros Hp. rewrite !loop_eq. apply Permutation_map.
  induction Hp as [|x l l' Hp IH|x y l|l l' l'' _ IH1 _ IH2]; cbn [filter].
  - constructor.
  - destruct (negb (contains timestamp_marker x)); auto.
  - destruct (negb (contains timestamp_marker x)), (negb (contains timestamp_marker y));
      auto using perm_swap.
  - eauto using perm_trans.
Qed.

Lemma loop_length (l : list string) :
  length (process_symbols_loop l) + length (filter (contains timestamp_marker) l) = length l.
Proof.
  induction l as [|s l IH]; [reflexivity|].
  cbn [process_symbols_loop filter].
  destruct (contains timestamp_marker s); cbn [length]; [lia|].
  destruct (contains dq s && contains ".h" s)%bool; cbn [length]; lia.
Qed.

Lemma loop_in (l : list string) (x : string) :
  In x (process_symbols_loop l) <->
  exists s, In s l /\ contains timestamp_marker s = false /\ x = symbol_out s.
Proof.
  rewrite loop_eq, in_map_iff. split.
  - intros [s [<- Hs]]. apply filter_In in Hs as [Hs Hm].
    exists s. split; [exact Hs|]. split; [|reflexivity].
    destruct (contains timestamp_marker s); [discriminate|reflexivity].
  - intros [s [Hs [Hm ->]]]. exists s. split; [reflexivity|].
    apply filter_In. rewrite Hm. auto.
Qed.

Lemma marker_plain :
  timestamp_marker <> EmptyString /\
  has_char dq_char timestamp_marker = false /\ has_char bs_char timestamp_marker = false.
Proof. split; [discriminate|split; reflexivity]. Qed.

Lemma symbol_out_no_marker (s : string) :
  contains timestamp_marker s = false -> contains timestamp_marker (symbol_out s) = false.
Proof.
  intros Hs. unfold symbol_out.
  destruct (contains dq s && contains ".h" s)%bool; [|exact Hs].
  destruct (contains timestamp_marker (escape_quotes s)) eqn:E; [|reflexivity].
  destruct marker_plain as [H1 [H2 H3]].
  rewrite (StringFacts.contains_escape _ _ H1 H2 H3 E) in Hs. discriminate.
Qed.

(** Claim C2 (amended).  The output of [process_symbols] is sorted in
    non-decreasing order (equal entries are kept, so it is not strictly
    increasing), holds no entry containing [MBED_BUILD_TIMESTAMP], is the
    same for every permutation of the input, and has as many entries as the
    input minus the dropped timestamp entries. *)
Theorem process_symbols_sorted_filtered (l : list string) :
  Sorted PySort.str_le (process_symbols l) /\
  (forall x, In x (process_symbols l) -> contains timestamp_marker x = false) /\
  (forall l', Permutation l l' -> process_symbols l' = process_symbols l) /\
  length (process_symbols l) = length l - length (filter (contains timestamp_marker) l).
Proof.
  unfold process_symbols. split; [|split; [|split]].
  - apply SortFacts.sort_sorted.
  - intros x Hx. apply SortFacts.sort_in, loop_in in Hx as [s [_ [Hm ->]]].
    apply symbol_out_no_marker. exact Hm.
  - intros l' Hp. apply SortFacts.sort_perm_eq, loop_perm, Permutation_sym. exact Hp.
  - rewrite <- (Permutation_length (SortFacts.sort_perm _)).
    pose proof (loop_length l). lia.
Qed.

(** Claim C3 (amended).  An entry that contains [MBED_BUILD_TIMESTAMP] is
    dropped even when it names a header: neither it nor its escaped form is
    in the output.  Any other entry that contains a double quote and [.h]
    anywhere (name or value) appears in the output with each double quote
    preceded by a backslash, and every double quote of that output entry is
    immediately preceded by a backslash; any other entry appears
    unchanged. *)
Theorem process_symbols_escapes_headers (l : list string) :
  (forall s, contains timestamp_marker s = true ->
     ~ In s (process_symbols l) /\ ~ In (escape_quotes s) (process_symbols l)) /\
  (forall s, In s l -> contains timestamp_marker s = false ->
    (if (contains dq s && contains ".h" s)%bool
     then In (escape_quotes s) (process_symbols l)
     else In s (process_symbols l)) /\
    SpecPreds.quotes_escaped (escape_quotes s) = true).
Proof.
  split.
  - intros s Hm.
    assert (Hout : forall x, In x (process_symbols l) -> contains timestamp_marker x = false).
    { intros x Hx. apply SortFacts.sort_in, loop_in in Hx as [s' [_ [Hm' ->]]].
      apply symbol_out_no_marker. exact Hm'. }
    assert (He : contains timestamp_marker (escape_quotes s) = true).
    { destruct marker_plain as [_ [H2 _]]. apply StringFacts.contains_escape_fwd; assumption. }
    split; intros Hin; apply Hout in Hin; congruence.
  - intros s Hs Hm. split.
    + assert (Hin : In (symbol_out s) (process_symbols l)).
      { apply SortFacts.sort_in, loop_in. exists s. auto. }
      unfold symbol_out in Hin.
      destruct (contains dq s && contains ".h" s)%bool; exact Hin.
    + apply StringFacts.escape_quotes_escaped.
Qed.

(** Claim C4.  The end-to-end scenario of the specification. *)
Theorem process_symbols_example :
  process_symbols
    ["MBED_BUILD_TIMESTAMP=12345"; "FOO"; "BAR=1";
     "CMSIS_VECTAB_VIRTUAL_HEADER_FILE=" ++ dq ++ "cmsis_nvic.h" ++ dq] =
  ["BAR=1";
   "CMSIS_VECTAB_VIRTUAL_HEADER_FILE=" ++ bs ++ dq ++ "cmsis_nvic.h" ++ bs ++ dq;
   "FOO"].
Proof. vm_compute. reflexivity. Qed.

End SymbolClaims.

(** ** [merge_apps] *)

Module MergeClaims.
Import Adapter.

Lemma forall2_map_self {A : Type} (R : A -> A -> Prop) (f : A -> A) (l : list A) :
  (forall x, R x (f x)) -> Forall2 R l (map f l).
Proof. intros H. induction l; constructor; auto. Qed.

Section Merge.
Variable a : Adapter.
Variable UPDATE_WHITELIST : list string.
Variable generate_update_filename : string -> string -> string.

(** Claim C8.  On a target with regions, [merge_apps] first merges the
    region list in which the active regions carry the user program as
    filename and the other regions are unchanged; a second merge, of the
    regions named in [UPDATE_WHITELIST], is requested exactly when one of
    the regions has such a name. *)
Theorem merge_apps_overrides_active_region (tc : Toolchain) (up fw : string)
    (tr : list Event) :
  config_has_regions tc = true ->
  exists rl rest,
    merge_apps a UPDATE_WHITELIST generate_update_filename tc up fw tr =
      (Ret tt, (tr ++ EMerge rl fw :: rest)%list) /\
    Forall2 (fun r r' => if r_active r then r' = replace_filename r up else r' = r)
      (config_regions tc) rl /\
    (rest = [] \/ exists ur out, rest = [EMerge ur out]) /\
    ((exists ur out, rest = [EMerge ur out]) <->
     exists r, In r (config_regions tc) /\
               in_update_whitelist UPDATE_WHITELIST (r_name r) = true).
Proof.
  intros Hreg. unfold merge_apps. rewrite Hreg.
  set (f := fun r => if r_active r then replace_filename r up else r).
  set (rl := map f (config_regions tc)).
  assert (Hname : forall r, r_name (f r) = r_name r)
    by (intros r; unfold f; destruct (r_active r); reflexivity).
  assert (Hf2 : Forall2 (fun r r' => if r_active r then r' = replace_filename r up else r' = r)
                  (config_regions tc) rl).
  { apply forall2_map_self. intros r. unfold f. destruct (r_active r); reflexivity. }
  destruct (filter (fun r => in_update_whitelist UPDATE_WHITELIST (r_name r)) rl)
    as [|u us] eqn:E.
  - exists rl, []. split; [reflexivity|]. split; [exact Hf2|]. split; [left; reflexivity|].
    split; [intros [ur [out H]]; discriminate|].
    intros [r [Hr Hw]].
    assert (Hin : In (f r) (filter (fun r => in_update_whitelist UPDATE_WHITELIST (r_name r)) rl)).
    { apply filter_In. split; [apply in_map; exact Hr|rewrite Hname; exact Hw]. }
    rewrite E in Hin. destruct Hin.
  - eexists rl, [EMerge (u :: us) _]. split.
    + unfold bind, merge_region_list, emit. rewrite <- app_assoc. reflexivity.
    + split; [exact Hf2|]. split; [right; eauto|].
      split; [intros _|intros _; eauto].
      assert (Hu : In u (filter (fun r => in_update_whitelist UPDATE_WHITELIST (r_name r)) rl))
        by (rewrite E; left; reflexivity).
      apply filter_In in Hu as [Hu Hw]. apply in_map_iff in Hu as [r [<- Hr]].
      exists r. rewrite <- Hname. auto.
Qed.

End Merge.
End MergeClaims.

(** * Concrete runs: witnesses and counterexamples *)

Module Runs.
Import Py OsPath Adapter.

Definition demo_result : ProjectInfo :=
  project_info Demo.adapter Demo.toolchain Demo.resources.

Lemma demo_extract_ok :
  Demo.extract Demo.adapter Demo.profiles_present Demo.scan [] =
  (Ret demo_result, [EPrepareToolchain ["src"]; EScan ["src"]]).
Proof. vm_compute. reflexivity. Qed.

Lemma demo_extract_empty_ok :
  Demo.extract Demo.adapter Demo.profiles_present Demo.scan_empty [] =
  (Ret (project_info Demo.adapter Demo.toolchain Demo.empty_resources),
   [EPrepareToolchain ["src"]; EScan ["src"]]).
Proof. vm_compute. reflexivity. Qed.

(** C1: the path of the specification's scenario keeps all its components
    when the framework directory is named differently. *)
Lemma fix_path_two_components_counterexample :
  fix_path Demo.adapter (Some "fw_root/internal/drivers/uart.c") =
    "fw_root/internal/drivers/uart.c" /\
  fix_path Demo.adapter (Some "fw_root/internal/drivers/uart.c") <> "drivers/uart.c".
Proof. split; vm_compute; [reflexivity|discriminate]. Qed.

Lemma fix_path_strips_through_framework_dir_witness :
  fix_path Demo.adapter
    (Some ("build" ++ "/" ++ basename (framework_path Demo.adapter) ++ "/" ++ "drivers/uart.c"))
    = "drivers/uart.c" /\
  fix_path Demo.adapter
    (Some (basename (framework_path Demo.adapter) ++ "/framework-mbed/main.c"))
    = "framework-mbed/main.c" /\
  ldscript demo_result = fix_paths Demo.adapter [linker_script Demo.resources].
Proof.
  pose proof (PathClaims.fix_path_strips_through_framework_dir
                Demo.target_map Demo.profiles_present Demo.load_profile
                Demo.prepare Demo.scan Demo.relpath Demo.adapter) as [H1 [H2 [_ H4]]].
  split; [|split].
  - apply H1; vm_compute; [discriminate|reflexivity].
  - rewrite (H2 (basename (framework_path Demo.adapter) ++ "/framework-mbed/main.c")
               EmptyString "/framework-mbed/main.c" eq_refl
               (fun u' v' _ => Nat.le_0_l _)).
    reflexivity.
  - destruct (H4 false [] _ _ demo_extract_ok) as [ti [_ Hf]]. cbv zeta in Hf.
    exact (proj1 (proj2 (proj2 Hf))).
Defined.

(** C2: equal symbols are both kept, so the output is not strictly sorted. *)
Lemma process_symbols_duplicates_counterexample :
  process_symbols ["FOO"; "FOO"] = ["FOO"; "FOO"] /\
  ~ Sorted PySort.str_lt (process_symbols ["FOO"; "FOO"]).
Proof.
  split; [reflexivity|].
  intros H. vm_compute in H. apply Sorted_inv in H as [_ H].
  apply HdRel_inv in H. vm_compute in H. discriminate.
Qed.

Lemma process_symbols_sorted_filtered_witness :
  process_symbols ["FOO"; "BAR=1"] = process_symbols ["BAR=1"; "FOO"] /\
  process_symbols ["BAR=1"; "FOO"] = ["BAR=1"; "FOO"].
Proof.
  split.
  - apply (proj1 (proj2 (proj2 (SymbolClaims.process_symbols_sorted_filtered
                                   ["BAR=1"; "FOO"])))).
    apply perm_swap.
  - vm_compute. reflexivity.
Defined.

(** C3: a timestamp entry naming a header is dropped, and an entry whose
    quote is in the name and [.h] in the value is escaped. *)
Lemma process_symbols_header_counterexample :
  process_symbols ["MBED_BUILD_TIMESTAMP=" ++ dq ++ "build.h" ++ dq] = [] /\
  process_symbols ["X" ++ dq ++ "=a.h"] = ["X" ++ bs ++ dq ++ "=a.h"].
Proof. split; vm_compute; reflexivity. Qed.

Lemma process_symbols_escapes_headers_witness :
  In ("CMSIS_VECTAB_VIRTUAL_HEADER_FILE=" ++ bs ++ dq ++ "cmsis_nvic.h" ++ bs ++ dq)
     (process_symbols ["FOO"; "CMSIS_VECTAB_VIRTUAL_HEADER_FILE=" ++ dq ++ "cmsis_nvic.h" ++ dq]) /\
  SpecPreds.quotes_escaped
    (escape_quotes ("CMSIS_VECTAB_VIRTUAL_HEADER_FILE=" ++ dq ++ "cmsis_nvic.h" ++ dq)) = true /\
  ~ In ("MBED_BUILD_TIMESTAMP=" ++ dq ++ "build.h" ++ dq)
       (process_symbols ["FOO"; "MBED_BUILD_TIMESTAMP=" ++ dq ++ "build.h" ++ dq]).
Proof.
  set (sym := "CMSIS_VECTAB_VIRTUAL_HEADER_FILE=" ++ dq ++ "cmsis_nvic.h" ++ dq).
  set (l := ["FOO"; sym]).
  assert (Hl : In sym l) by (right; left; reflexivity).
  assert (Hm : contains Adapter.timestamp_marker sym = false) by (vm_compute; reflexivity).
  destruct (proj2 (SymbolClaims.process_symbols_escapes_headers l) sym Hl Hm) as [H1 H2].
  assert (Hc : (contains dq sym && contains ".h" sym)%bool = true) by (vm_compute; reflexivity).
  rewrite Hc in H1.
  assert (He : escape_quotes sym =
               "CMSIS_VECTAB_VIRTUAL_HEADER_FILE=" ++ bs ++ dq ++ "cmsis_nvic.h" ++ bs ++ dq)
    by (vm_compute; reflexivity).
  rewrite He in H1. split; [exact H1|split; [exact H2|]].
  refine (proj1 (proj1 (SymbolClaims.process_symbols_escapes_headers
                          ["FOO"; "MBED_BUILD_TIMESTAMP=" ++ dq ++ "build.h" ++ dq]) _ _)).
  vm_compute. reflexivity.
Defined.

(** C5: a one-component path yields a non-empty string and is kept. *)
Lemma fix_paths_one_component_counterexample :
  fix_path Demo.adapter (Some "main.c") = "main.c" /\
  fix_paths Demo.adapter [Some "main.c"] = ["main.c"].
Proof. split; vm_compute; reflexivity. Qed.

Lemma fix_paths_drops_empty_witness :
  fix_paths Demo.adapter [Some "../framework-mbed/"; None; Some "../framework-mbed/main.c"]
    = ["main.c"] /\
  ~ In EmptyString (src_files demo_result).
Proof.
  pose proof (PathClaims.fix_paths_drops_empty
                Demo.target_map Demo.profiles_present Demo.load_profile
                Demo.prepare Demo.scan Demo.relpath Demo.adapter) as [H1 [_ H3]].
  split.
  - rewrite (proj1 (H1 _)). vm_compute. reflexivity.
  - exact (proj1 (H3 false [] _ _ demo_extract_ok)).
Defined.

(** C6: an unknown target raises [TypeError] with nothing written; a missing
    profile file writes its message and exits with status 1. *)
Lemma extract_unknown_target_raises_witness :
  Demo.extract Demo.unknown_target_adapter Demo.profiles_present Demo.scan [] =
    (Raise TypeError, []) /\
  Demo.extract Demo.adapter Demo.profiles_absent Demo.scan [] =
    (Exit 1, [EStderr ("Could not find the file with build profiles!" ++ nl)]).
Proof.
  split.
  - apply (proj1 (PathClaims.extract_unknown_target_raises
                    Demo.target_map Demo.profiles_present Demo.load_profile
                    Demo.prepare Demo.scan Demo.relpath
                    Demo.unknown_target_adapter false [])).
    reflexivity.
  - apply (proj2 (PathClaims.extract_unknown_target_raises
                    Demo.target_map Demo.profiles_absent Demo.load_profile
                    Demo.prepare Demo.scan Demo.relpath
                    Demo.adapter false []) tt); reflexivity.
Defined.

(** C7: with no file reference scanned, the symbols and system libraries of
    the toolchain are still reported. *)
Lemma extract_empty_scan_counterexample :
  exists r tr',
    Demo.extract Demo.adapter Demo.profiles_present Demo.scan_empty [] = (Ret r, tr') /\
    build_symbols r = ["FOO"] /\ syslibs r = ["m"].
Proof. do 2 eexists. split; [exact demo_extract_empty_ok|split; reflexivity]. Qed.

Lemma extract_empty_scan_witness :
  src_files (project_info Demo.adapter Demo.toolchain Demo.empty_resources) = [] /\
  ldscript (project_info Demo.adapter Demo.toolchain Demo.empty_resources) = [].
Proof.
  pose proof (PathClaims.extract_empty_scan
                Demo.target_map Demo.profiles_present Demo.load_profile
                Demo.prepare Demo.scan_empty Demo.relpath Demo.adapter false [] _ _
                (fun _ _ => eq_refl) demo_extract_empty_ok) as H.
  split; [exact (proj1 H)|exact (proj1 (proj2 (proj2 H)))].
Defined.

(** C8 *)
Lemma merge_apps_overrides_active_region_witness :
  exists rl rest,
    merge_apps Demo.adapter ["application"] Demo.update_filename
      Demo.regions_toolchain "firmware.elf" "firmware.bin" [] =
      (Ret tt, (EMerge rl "firmware.bin" :: rest)) /\
    rest <> [].
Proof.
  destruct (MergeClaims.merge_apps_overrides_active_region
              Demo.adapter ["application"] Demo.update_filename
              Demo.regions_toolchain "firmware.elf" "firmware.bin" [] eq_refl)
    as [rl [rest [Hrun [_ [_ Hiff]]]]].
  exists rl, rest. split; [exact Hrun|].
  destruct (proj2 Hiff) as [ur [out ->]]; [|discriminate].
  exists (Demo.region "application" true). split; [right; left; reflexivity|reflexivity].
Defined.

(** C9 *)
Lemma fix_path_identity_without_framework_dir_witness :
  fix_path Demo.adapter (Some "src/main.cpp") = "src/main.cpp".
Proof.
  apply (proj1 (PathClaims.fix_path_identity_without_framework_dir Demo.adapter)).
  vm_compute. reflexivity.
Defined.

(** C10: a source file directly under the framework root becomes a
    one-component path, as [libs] entries are. *)
Lemma extract_single_component_counterexample :
  In "main.c" (src_files demo_result) /\ has_char sep_char "main.c" = false /\
  libs demo_result = ["libfoo.a"].
Proof. split; [|split]; vm_compute; auto. Qed.

Lemma extract_libs_are_basenames_witness :
  libs demo_result = ["libfoo.a"] /\ has_char sep_char "libfoo.a" = false.
Proof.
  assert (Hl : libs demo_result = ["libfoo.a"]) by (vm_compute; reflexivity).
  split; [exact Hl|].
  apply (proj2 (PathClaims.extract_libs_are_basenames
                  Demo.target_map Demo.profiles_present Demo.load_profile
                  Demo.prepare Demo.scan Demo.relpath Demo.adapter false [] _ _
                  demo_extract_ok)).
  rewrite Hl. left. reflexivity.
Defined.

End Runs.

(** * Further properties of the adapter *)

Module StrApp.
Import Py OsPath.

Lemma str_app_nil (s : string) : (s ++ EmptyString)%string = s.
Proof. induction s as [|c s IH]; [reflexivity|]. cbn [append]. rewrite IH. reflexivity. Qed.

Lemma str_app_assoc (a b c : string) : (a ++ (b ++ c))%string = ((a ++ b) ++ c)%string.
Proof. induction a as [|x a IH]; [reflexivity|]. cbn [append]. rewrite IH. reflexivity. Qed.

Lemma drop_suffix (n : nat) (s : string) : exists u, s = (u ++ drop n s)%string.
Proof.
  revert s; induction n as [|n IH]; intros s.
  - exists EmptyString. reflexivity.
  - destruct s as [|c s].
    + exists EmptyString. reflexivity.
    + destruct (IH s) as [u Hu]. exists (String c u). cbn [drop append].
      rewrite <- Hu. reflexivity.
Qed.

Lemma has_char_app_sep (u v : string) : has_char sep_char (u ++ String sep_char v) = true.
Proof.
  induction u as [|c u IH]; cbn [append has_char].
  - rewrite Ascii.eqb_refl. reflexivity.
  - rewrite IH, orb_true_r. reflexivity.
Qed.

Lemma basename_app_sep (x b : string) :
  has_char sep_char b = false -> basename (x ++ String sep_char b) = b.
Proof.
  intros Hb. induction x as [|c x IH]; cbn [append basename].
  - rewrite Hb, Ascii.eqb_refl. reflexivity.
  - rewrite has_char_app_sep. exact IH.
Qed.

Lemma basename_empty_ends_sep (p : string) :
  basename p = EmptyString -> p = EmptyString \/ exists x, p = (x ++ "/")%string.
Proof.
  induction p as [|c p IH]; intros H; [left; reflexivity|right].
  cbn [basename] in H. destruct (has_char sep_char p) eqn:Hp.
  - destruct (IH H) as [->|[x ->]]; [discriminate|].
    exists (String c x). reflexivity.
  - destruct (Ascii.eqb c sep_char) eqn:Ec; [|discriminate].
    apply Ascii.eqb_eq in Ec. subst. exists EmptyString. reflexivity.
Qed.

(** [join(x + '/', b)] for a relative, non-empty [b]. *)
Lemma join_after_sep (x b : string) (c : ascii) :
  Ascii.eqb c sep_char = false ->
  join (x ++ "/") (String c b) = ((x ++ "/") ++ String c b)%string.
Proof.
  intros Hc. unfold join. rewrite Hc.
  assert (Hx : basename (x ++ String sep_char EmptyString) = EmptyString)
    by (apply basename_app_sep; reflexivity).
  change (x ++ "/")%string with (x ++ String sep_char EmptyString)%string.
  destruct x as [|d x]; [reflexivity|].
  rewrite Hx, String.eqb_refl. reflexivity.
Qed.

(** [join(a, b)] when [a] is non-empty and does not end in a separator. *)
Lemma join_no_sep (a b : string) (c : ascii) :
  a <> EmptyString -> String.eqb (basename a) EmptyString = false ->
  Ascii.eqb c sep_char = false ->
  join a (String c b) = (a ++ "/" ++ String c b)%string.
Proof.
  intros Ha Hb Hc. unfold join. rewrite Hc.
  destruct a as [|d a]; [congruence|]. rewrite Hb. reflexivity.
Qed.

End StrApp.

Module ProfileFacts.
Import Py OsPath Adapter StrApp.

Lemma join_tail (t b c : string) :
  has_char sep_char b = false -> b <> EmptyString ->
  String.prefix "/" c = false -> c <> EmptyString ->
  join (t ++ String sep_char b) c = ((t ++ String sep_char b) ++ String sep_char c)%string.
Proof.
  intros Hb Hbe Hc Hce. destruct c as [|c0 c]; [congruence|].
  rewrite join_no_sep.
  - reflexivity.
  - destruct t; discriminate.
  - rewrite basename_app_sep by exact Hb. destruct b; [congruence|reflexivity].
  - destruct (Ascii.eqb c0 sep_char) eqn:E; [|reflexivity].
    apply Ascii.eqb_eq in E. subst.
    rewrite StringFacts.prefix_cons, StringFacts.prefix_empty in Hc. discriminate.
Qed.

Lemma profile_tail (t : string) :
  join (join (t ++ "/tools") "profiles") (BUILD_PROFILE ++ ".json") =
  (t ++ "/tools/profiles/release.json")%string.
Proof.
  change (t ++ "/tools")%string with (t ++ String sep_char "tools")%string.
  rewrite join_tail by (reflexivity || discriminate).
  change (BUILD_PROFILE ++ ".json")%string with "release.json".
  rewrite <- str_app_assoc.
  change (String sep_char "tools" ++ String sep_char "profiles")%string
    with ("/tools" ++ String sep_char "profiles")%string.
  rewrite str_app_assoc.
  rewrite join_tail by (reflexivity || discriminate).
  rewrite <- !str_app_assoc. reflexivity.
Qed.

Lemma profile_file (fw : string) :
  join (join (join fw "tools") "profiles") (BUILD_PROFILE ++ ".json") =
  ((if String.eqb (basename fw) EmptyString then fw else fw ++ "/") ++
   "tools/profiles/release.json")%string.
Proof.
  destruct (String.eqb (basename fw) EmptyString) eqn:Eb.
  - apply String.eqb_eq in Eb. destruct (basename_empty_ends_sep fw Eb) as [->|[x ->]].
    + reflexivity.
    + rewrite join_after_sep by reflexivity.
      rewrite <- !str_app_assoc. apply profile_tail.
  - assert (Hfw : fw <> EmptyString) by (intros ->; discriminate).
    rewrite (join_no_sep fw "ools" "t"%char Hfw Eb eq_refl).
    rewrite <- !str_app_assoc. apply profile_tail.
Qed.

End ProfileFacts.

Module AdapterExtras.
Import Py OsPath Adapter StrApp.

(** [get_build_profile] looks for [tools/profiles/release.json] under the
    framework root, with a separator added only when the root does not
    already end in one; a missing file writes one message and exits with
    status 1. *)
Theorem get_build_profile_file (a : Adapter) (Profile : Type) (isfile : string -> bool)
    (load_json : string -> Profile) (tr : list Event) :
  let file := ((if String.eqb (basename (framework_path a)) EmptyString
                then framework_path a else framework_path a ++ "/") ++
               "tools/profiles/release.json")%string in
  get_build_profile a Profile isfile load_json tr =
  if isfile file then (Ret [load_json file], tr)
  else (Exit 1, (tr ++ [EStderr ("Could not find the file with build profiles!" ++ nl)])%list).
Proof.
  intros file. unfold get_build_profile. rewrite ProfileFacts.profile_file. fold file.
  destruct (isfile file); reflexivity.
Qed.

(** [fix_path] only ever removes a leading part of its argument: the result
    is a suffix of the input path. *)
Theorem fix_path_suffix (a : Adapter) (p : string) :
  exists u, p = (u ++ fix_path a (Some p))%string.
Proof.
  unfold fix_path. destruct (falsy (Some p)) eqn:Ef.
  - exists p. rewrite str_app_nil. reflexivity.
  - destruct (contains (basename (framework_path a)) p).
    + set (k := index (basename (framework_path a)) p + String.length (basename (framework_path a))).
      destruct (drop_suffix k p) as [u Hu].
      destruct (drop_suffix 1 (drop k p)) as [v Hv].
      exists (u ++ v)%string. rewrite <- str_app_assoc, <- Hv. exact Hu.
    + exists EmptyString. reflexivity.
Qed.

(** When the framework root ends in a separator, its basename is empty, an
    empty string occurs at position 0 of every path, and [fix_path] just
    drops the first character of every path. *)
Theorem fix_path_trailing_sep (a : Adapter) (p : string) :
  basename (framework_path a) = EmptyString ->
  fix_path a (Some p) = drop 1 p.
Proof.
  intros Hb. unfold fix_path. rewrite Hb.
  destruct p as [|c p]; [reflexivity|].
  cbn [falsy]. rewrite (StringFacts.prefix_contains _ _ (StringFacts.prefix_empty _)).
  unfold index. rewrite (PathFacts.find_prefix _ _ (StringFacts.prefix_empty _)).
  reflexivity.
Qed.

Section Extract.
Context {TargetInfo Profile : Type}.
Variable TARGET_MAP : string -> option TargetInfo.
Variable isfile : string -> bool.
Variable load_json : string -> Profile.
Variable prepare_toolchain_fn :
  list string -> string -> TargetInfo -> string -> option string ->
  list Profile -> option (list string) -> Toolchain.
Variable scan_with_toolchain_fn : list string -> Toolchain -> Resources.
Variable relpath : string -> string.

(** When [extract_project_info] returns a result, the target is known, the
    profile file exists and there is at least one source path; the
    toolchain has been prepared and the sources scanned once each, in that
    order, and the configuration header generated only when asked. *)
Theorem extract_project_info_success (a : Adapter) (gc : bool) (tr tr' : list Event)
    (r : ProjectInfo) :
  extract_project_info a TargetInfo Profile TARGET_MAP isfile load_json
    prepare_toolchain_fn scan_with_toolchain_fn relpath gc tr = (Ret r, tr') ->
  TARGET_MAP (target a) <> None /\
  isfile (((if String.eqb (basename (framework_path a)) EmptyString
            then framework_path a else framework_path a ++ "/") ++
           "tools/profiles/release.json")%string) = true /\
  src_paths a <> [] /\
  tr' = (tr ++ [EPrepareToolchain (map relpath (src_paths a));
                EScan (map relpath (src_paths a))] ++
         (if gc then [EConfigHeader] else []))%list.
Proof.
  unfold extract_project_info, get_target_config, get_build_profile,
    prepare_toolchain, scan_with_toolchain, bind, ret, emit, sys_exit, raise,
    stderr_write.
  rewrite ProfileFacts.profile_file.
  destruct (TARGET_MAP (target a)) as [ti|]; [|discriminate].
  destruct (isfile _); cbn [negb]; [|discriminate].
  destruct (src_paths a) as [|s0 src]; cbn [map]; [discriminate|].
  intros H. split; [discriminate|]. split; [reflexivity|]. split; [discriminate|].
  destruct gc; injection H as _ <-; rewrite <- !app_assoc; reflexivity.
Qed.

(** With an empty list of source paths (and a known target and profile
    file), the toolchain is prepared and then [self.src_paths[0]] raises
    [IndexError]: nothing is scanned. *)
Theorem extract_project_info_no_sources (a : Adapter) (gc : bool) (tr : list Event) :
  src_paths a = [] -> TARGET_MAP (target a) <> None ->
  isfile (((if String.eqb (basename (framework_path a)) EmptyString
            then framework_path a else framework_path a ++ "/") ++
           "tools/profiles/release.json")%string) = true ->
  extract_project_info a TargetInfo Profile TARGET_MAP isfile load_json
    prepare_toolchain_fn scan_with_toolchain_fn relpath gc tr =
  (Raise IndexError, (tr ++ [EPrepareToolchain []])%list).
Proof.
  intros Hs Ht Hf.
  unfold extract_project_info, get_target_config, get_build_profile,
    prepare_toolchain, scan_with_toolchain, bind, ret, emit, sys_exit, raise,
    stderr_write.
  rewrite ProfileFacts.profile_file, Hf, Hs. cbn [negb map].
  destruct (TARGET_MAP (target a)); [reflexivity|congruence].
Qed.

End Extract.
End AdapterExtras.

Module ResultExtras.
Import Py OsPath Adapter.

Lemma fix_paths_app (a : Adapter) (l1 l2 : list (option string)) :
  fix_paths a (l1 ++ l2) = (fix_paths a l1 ++ fix_paths a l2)%list.
Proof.
  induction l1 as [|p l1 IH]; [reflexivity|]. cbn [fix_paths app].
  rewrite IH. destruct (falsy (Some (fix_path a p))); reflexivity.
Qed.

(** [src_files] lists the kept assembler sources, then the C sources, then
    the C++ sources, each group in scanner order.  [ldscript] has at most
    one entry, and none exactly when the scanner found no linker script or
    [fix_path] turns it into the empty string. *)
Theorem project_info_src_files_and_ldscript (a : Adapter) (tc : Toolchain) (res : Resources) :
  src_files (project_info a tc res) =
    (fix_paths a (map Some (s_sources res)) ++ fix_paths a (map Some (c_sources res)) ++
     fix_paths a (map Some (cpp_sources res)))%list /\
  length (ldscript (project_info a tc res)) <= 1 /\
  (ldscript (project_info a tc res) = [] <-> fix_path a (linker_script res) = EmptyString).
Proof.
  cbn [project_info src_files ldscript]. split; [|split].
  - rewrite !map_app, !fix_paths_app. reflexivity.
  - cbn [fix_paths]. destruct (falsy (Some (fix_path a (linker_script res)))); cbn; lia.
  - cbn [fix_paths]. rewrite PathClaims.falsy_some.
    destruct (String.eqb (fix_path a (linker_script res)) EmptyString) eqn:E.
    + apply String.eqb_eq in E. tauto.
    + apply String.eqb_neq in E. split; [discriminate|tauto].
Qed.

End ResultExtras.

Module MergeExtras.
Import Py OsPath Adapter.

Section Merge.
Variable a : Adapter.
Variable UPDATE_WHITELIST : list string.
Variable generate_update_filename : string -> string -> string.

(** [merge_apps] leaves the trace unchanged exactly when [needs_merging]
    is false: on a target with regions at least one merge is requested. *)
Theorem merge_apps_noop_iff (tc : Toolchain) (up fw : string) (tr : list Event) :
  merge_apps a UPDATE_WHITELIST generate_update_filename tc up fw tr = (Ret tt, tr) <->
  AdapterMore.needs_merging tc = false.
Proof.
  unfold AdapterMore.needs_merging, merge_apps.
  destruct (config_has_regions tc); [|split; reflexivity].
  split; [|discriminate]. intros H. exfalso.
  unfold bind, merge_region_list, emit, ret in H.
  destruct (filter _ _); injection H as H;
    apply (f_equal (@length Event)) in H; rewrite ?length_app in H; cbn in H; lia.
Qed.

(** When [merge_apps] requests a second merge, its output is
    [join(build_path, generate_update_filename(firmware_path, target))], and
    its regions are exactly the regions whose name is in [UPDATE_WHITELIST],
    with the user program as filename for the active ones. *)
Theorem merge_apps_update_image (tc : Toolchain) (up fw : string) (tr : list Event)
    (rl ur : list Region) (out : string) :
  merge_apps a UPDATE_WHITELIST generate_update_filename tc up fw tr =
    (Ret tt, (tr ++ [EMerge rl fw; EMerge ur out])%list) ->
  out = join (build_path a) (generate_update_filename fw (tc_target tc)) /\
  (forall r', In r' ur <->
     exists r, In r (config_regions tc) /\
       in_update_whitelist UPDATE_WHITELIST (r_name r) = true /\
       r' = (if r_active r then replace_filename r up else r)).
Proof.
  unfold merge_apps. destruct (config_has_regions tc).
  2:{ intros H. injection H as H. apply (f_equal (@length Event)) in H.
      rewrite length_app in H. cbn in H. lia. }
  set (f := fun r => if r_active r then replace_filename r up else r).
  unfold bind, merge_region_list, emit, ret.
  destruct (filter (fun r => in_update_whitelist UPDATE_WHITELIST (r_name r))
              (map f (config_regions tc))) as [|u us] eqn:E; intros H; injection H as H.
  - apply (f_equal (@length Event)) in H. rewrite !length_app in H. cbn in H. lia.
  - rewrite <- app_assoc in H. apply app_inv_head in H. cbn in H.
    injection H as _ <- <-. split; [reflexivity|]. intros r'. rewrite <- E.
    rewrite filter_In, in_map_iff. split.
    + intros [[r [<- Hr]] Hw]. exists r. split; [exact Hr|]. split; [|reflexivity].
      unfold f in Hw. destruct (r_active r); exact Hw.
    + intros [r [Hr [Hw ->]]]. split; [exists r; split; [reflexivity|exact Hr]|].
      destruct (r_active r); exact Hw.
Qed.

End Merge.
End MergeExtras.

Module SymbolExtras.
Import Py Adapter.

Lemma contains_dq_escape (s : string) :
  contains dq s = true -> contains dq (escape_quotes s) = true.
Proof.
  induction s as [|c s IH]; intros Hc; [exact Hc|].
  cbn [contains] in Hc. unfold dq in Hc |- *.
  rewrite StringFacts.prefix_cons, StringFacts.prefix_empty, andb_true_r in Hc.
  cbn [escape_quotes]. destruct (Ascii.eqb c dq_char) eqn:Ec.
  - apply StringFacts.contains_cons_r, StringFacts.prefix_contains.
    rewrite StringFacts.prefix_cons, StringFacts.prefix_empty, Ascii.eqb_refl. reflexivity.
  - rewrite Ascii.eqb_sym, Ec in Hc. apply StringFacts.contains_cons_r, IH, Hc.
Qed.

Lemma bs_dq_neq : Ascii.eqb bs_char dq_char = false.
Proof. reflexivity. Qed.

Lemma escape_quotes_inj (s t : string) : escape_quotes s = escape_quotes t -> s = t.
Proof.
  revert t; induction s as [|c s IH]; intros t H; destruct t as [|d t]; cbn [escape_quotes] in H.
  - reflexivity.
  - destruct (Ascii.eqb d dq_char); discriminate.
  - destruct (Ascii.eqb c dq_char); discriminate.
  - destruct (Ascii.eqb c dq_char) eqn:Ec, (Ascii.eqb d dq_char) eqn:Ed.
    + apply Ascii.eqb_eq in Ec, Ed. subst. injection H as H. rewrite (IH t H). reflexivity.
    + injection H as Hd H. subst d. destruct t as [|e t]; cbn [escape_quotes] in H;
        [discriminate|].
      destruct (Ascii.eqb e dq_char) eqn:Ee; injection H as He _.
      * pose proof bs_dq_neq as Hbd. apply Ascii.eqb_neq in Hbd. congruence.
      * subst e. rewrite Ascii.eqb_refl in Ee. discriminate.
    + injection H as Hc H. subst c. destruct s as [|e s]; cbn [escape_quotes] in H;
        [discriminate|].
      destruct (Ascii.eqb e dq_char) eqn:Ee; injection H as He _.
      * pose proof bs_dq_neq as Hbd. apply Ascii.eqb_neq in Hbd. congruence.
      * subst e. rewrite Ascii.eqb_refl in Ee. discriminate.
    + injection H as <- H. rewrite (IH t H). reflexivity.
Qed.

Lemma dot_h_plain : has_char dq_char ".h" = false.
Proof. reflexivity. Qed.

Lemma symbol_out_inj (s t : string) :
  SymbolClaims.symbol_out s = SymbolClaims.symbol_out t -> s = t.
Proof.
  unfold SymbolClaims.symbol_out.
  destruct (contains dq s && contains ".h" s)%bool eqn:Es,
           (contains dq t && contains ".h" t)%bool eqn:Et; intros H.
  - apply escape_quotes_inj, H.
  - apply andb_true_iff in Es as [Es1 Es2]. subst t.
    rewrite (contains_dq_escape _ Es1), (StringFacts.contains_escape_fwd _ _ dot_h_plain Es2) in Et.
    discriminate.
  - apply andb_true_iff in Et as [Et1 Et2]. subst s.
    rewrite (contains_dq_escape _ Et1), (StringFacts.contains_escape_fwd _ _ dot_h_plain Et2) in Es.
    discriminate.
  - exact H.
Qed.

Lemma nodup_map_inj {A B} (f : A -> B) (l : list A) :
  (forall x y, f x = f y -> x = y) -> NoDup l -> NoDup (map f l).
Proof.
  intros Hf Hl. induction Hl as [|x l Hx Hl IH]; constructor; [|exact IH].
  intros Hin. apply in_map_iff in Hin as [y [Hy Hyl]].
  apply Hf in Hy. subst. contradiction.
Qed.

Lemma sorted_le_nodup_lt (l : list string) :
  Sorted PySort.str_le l -> NoDup l -> Sorted PySort.str_lt l.
Proof.
  induction 1 as [|x l Hs IH Hhd]; intros Hn; constructor.
  - apply IH. inversion Hn; assumption.
  - inversion Hn as [|? ? Hx _]; subst. destruct Hhd as [|y l' Hxy]; constructor.
    unfold PySort.str_le in Hxy. unfold PySort.str_lt.
    destruct (String.compare x y) eqn:E; try reflexivity; [|congruence].
    apply String.compare_eq_iff in E. subst. exfalso. apply Hx. left. reflexivity.
Qed.

(** Distinct input symbols give distinct output symbols: escaping never
    makes two entries equal.  So on an input without duplicates the output
    of [process_symbols] has no duplicates and is strictly increasing. *)
Theorem process_symbols_distinct (l : list string) :
  NoDup l -> NoDup (process_symbols l) /\ Sorted PySort.str_lt (process_symbols l).
Proof.
  intros Hl.
  assert (Hn : NoDup (process_symbols_loop l)).
  { rewrite SymbolClaims.loop_eq. apply nodup_map_inj; [exact symbol_out_inj|].
    apply NoDup_filter, Hl. }
  assert (Hs : NoDup (process_symbols l))
    by (apply (Permutation_NoDup (SortFacts.sort_perm _)), Hn).
  split; [exact Hs|]. apply sorted_le_nodup_lt; [apply SortFacts.sort_sorted|exact Hs].
Qed.

End SymbolExtras.

(** * Properties of [mbed.py] *)

Module MbedSymbols.
Import Py Mbed.

Lemma split_eq_app (n d : string) :
  has_char "="%char n = false -> split_eq (n ++ "=" ++ d) = Some (n, d).
Proof.
  induction n as [|c n IH]; intros Hn; cbn [append split_eq].
  - rewrite Ascii.eqb_refl. reflexivity.
  - cbn [has_char] in Hn. apply orb_false_iff in Hn as [Hc Hn].
    rewrite Ascii.eqb_sym, Hc. cbn [append] in IH. rewrite (IH Hn). reflexivity.
Qed.

Lemma split_eq_spec (s n d : string) :
  split_eq s = Some (n, d) -> s = (n ++ "=" ++ d)%string /\ has_char "="%char n = false.
Proof.
  revert n; induction s as [|c s IH]; intros n H; cbn [split_eq] in H; [discriminate|].
  destruct (Ascii.eqb c "="%char) eqn:Ec.
  - injection H as <- <-. apply Ascii.eqb_eq in Ec. subst. split; reflexivity.
  - destruct (split_eq s) as [[n' d']|] eqn:Es; [|discriminate].
    injection H as <- <-. destruct (IH n' eq_refl) as [-> Hn'].
    split; [reflexivity|]. cbn [has_char]. rewrite Ascii.eqb_sym, Ec, Hn'. reflexivity.
Qed.

Lemma quotes_escaped_prefix (u w : string) (prev : option ascii) :
  SpecPreds.quotes_escaped_from prev (u ++ w) = true ->
  SpecPreds.quotes_escaped_from prev u = true.
Proof.
  revert prev; induction u as [|c u IH]; intros prev H; [reflexivity|].
  cbn [append SpecPreds.quotes_escaped_from] in H |- *.
  apply andb_true_iff in H as [H1 H2]. rewrite H1, (IH _ H2). reflexivity.
Qed.

(* For byte-string symbols: a symbol becomes the pair [(name, int(value))]
   exactly when, after its double quotes are escaped, it reads [name=value]
   with [name] free of [=] and [value] a non-empty string of ASCII digits. *)
Lemma cppdefine_value_split (s n : string) (v : N) :
  cppdefine_of_symbol s = DefValue n v <->
  exists d, escape_quotes s = (n ++ "=" ++ d)%string /\ has_char "="%char n = false /\
            isdigit d = true /\ py_int d = v.
Proof.
  unfold cppdefine_of_symbol. split.
  - destruct (split_eq (escape_quotes s)) as [[n' d]|] eqn:E; [|discriminate].
    destruct (isdigit d) eqn:Ed; [|discriminate]. intros H. injection H as <- <-.
    apply split_eq_spec in E as [E Hn]. exists d. auto.
  - intros [d [E [Hn [Hd <-]]]]. rewrite E, (split_eq_app _ _ Hn), Hd. reflexivity.
Qed.

(** Unlike [process_symbols] of the adapter, the script escapes every double
    quote of every symbol: a plain define is the escaped symbol, the name of
    a valued define is a prefix of it, and in both every double quote is
    preceded by a backslash. *)
Theorem cppdefines_quotes_escaped (symbols : list string) :
  Forall2 (fun s def =>
    match def with
    | DefPlain t => t = escape_quotes s /\ SpecPreds.quotes_escaped t = true
    | DefValue n _ =>
        (exists d, escape_quotes s = (n ++ "=" ++ d)%string) /\
        SpecPreds.quotes_escaped n = true
    end) symbols (cppdefines_of_symbols symbols).
Proof.
  unfold cppdefines_of_symbols. induction symbols as [|s l IH]; constructor; [|exact IH].
  destruct (cppdefine_of_symbol s) as [t|n v] eqn:E.
  - unfold cppdefine_of_symbol in E.
    assert (Ht : t = escape_quotes s).
    { destruct (split_eq (escape_quotes s)) as [[n d]|];
        [destruct (isdigit d)|]; congruence. }
    subst t. split; [reflexivity|]. apply StringFacts.escape_quotes_escaped.
  - apply cppdefine_value_split in E as [d [E _]]. split; [eauto|].
    apply (quotes_escaped_prefix _ ("=" ++ d)). unfold SpecPreds.quotes_escaped in *.
    rewrite <- E. apply StringFacts.escape_quotes_escaped.
Qed.

End MbedSymbols.

Module MbedManifest.
Import Py OsPath Mbed.

Lemma replace_backslash_no_bs (d : string) : has_char bs_char (replace_backslash d) = false.
Proof.
  induction d as [|c d IH]; [reflexivity|]. cbn [replace_backslash has_char].
  rewrite IH, orb_false_r. destruct (Ascii.eqb c bs_char) eqn:Ec; [reflexivity|].
  rewrite Ascii.eqb_sym. exact Ec.
Qed.

Lemma events_not_include (d : string) : include_flag d <> "-DMBED_CONF_EVENTS_PRESENT".
Proof. unfold include_flag. cbn [append]. discriminate. Qed.

(** [get_dynamic_manifest] fails exactly when one of [inc_dirs],
    [c_sources], [s_sources] and [cpp_sources] is missing from the library
    configuration, and then with [TypeError]. *)
Theorem get_dynamic_manifest_errors (name : string) (config : LibConfig)
    (extra_inc_dirs : list string) :
  ((exists m, get_dynamic_manifest name config extra_inc_dirs = Ok m) <->
   (lc_inc_dirs config <> None /\ lc_c_sources config <> None /\
    lc_s_sources config <> None /\ lc_cpp_sources config <> None)) /\
  (forall e, get_dynamic_manifest name config extra_inc_dirs = Err e -> e = TypeError).
Proof.
  unfold get_dynamic_manifest, get_list.
  destruct (lc_inc_dirs config), (lc_c_sources config), (lc_s_sources config),
    (lc_cpp_sources config);
    (split; [split; [intros [m H]; try discriminate; repeat split; discriminate
                    |intros [H1 [H2 [H3 H4]]]; try congruence; eauto]
            |intros e H; try discriminate; injection H as <-; reflexivity]).
Qed.

(** A manifest built by [get_dynamic_manifest]: its name is [mbed-<name>],
    it is not archived and uses the [deep+] dependency mode; its source
    filter excludes everything and then adds each C, assembler and C++
    source, in that order; its flags start with [-I..], include each
    extra directory with forward slashes only, and define
    [MBED_CONF_EVENTS_PRESENT] only for [netsocket]; it has dependencies only
    for [netsocket], [mbed-client-randlib] and [nfc]. *)
Theorem get_dynamic_manifest_fields (name : string) (config : LibConfig)
    (extra_inc_dirs : list string) (m : Manifest) :
  get_dynamic_manifest name config extra_inc_dirs = Ok m ->
  mf_name m = ("mbed-" ++ name)%string /\ mf_libArchive m = false /\
  mf_libLDFMode m = "deep+" /\
  (exists cs ss cpps,
     lc_c_sources config = Some cs /\ lc_s_sources config = Some ss /\
     lc_cpp_sources config = Some cpps /\
     mf_srcFilter m = "-<*>" :: map src_filter_entry (cs ++ ss ++ cpps)) /\
  hd_error (mf_flags m) = Some "-I.." /\
  (forall d, In d extra_inc_dirs ->
     In (include_flag (replace_backslash d)) (mf_flags m) /\
     has_char bs_char (replace_backslash d) = false) /\
  (In "-DMBED_CONF_EVENTS_PRESENT" (mf_flags m) <-> name = "netsocket") /\
  (mf_dependencies m <> None <-> In name ["netsocket"; "mbed-client-randlib"; "nfc"]).
Proof.
  unfold get_dynamic_manifest, get_list.
  destruct (lc_inc_dirs config) as [inc|]; [|discriminate].
  destruct (lc_c_sources config) as [cs|], (lc_s_sources config) as [ss|],
    (lc_cpp_sources config) as [cpps|]; try discriminate.
  intros H. injection H as <-. cbn [mf_name mf_libArchive mf_libLDFMode mf_srcFilter mf_flags
    mf_dependencies].
  set (base := (["-I.."] ++ map include_flag inc ++
                map (fun d => include_flag (replace_backslash d)) extra_inc_dirs)%list).
  assert (Hbase : ~ In "-DMBED_CONF_EVENTS_PRESENT" base).
  { unfold base. cbn [app]. intros [Hh|Hin]; [discriminate|].
    apply in_app_or in Hin as [Hin|Hin]; apply in_map_iff in Hin as [x [Hx _]];
      exact (events_not_include _ Hx). }
  assert (Hextra : forall d, In d extra_inc_dirs -> In (include_flag (replace_backslash d)) base).
  { intros d Hd. unfold base. apply in_or_app. right. apply in_or_app. right.
    apply (in_map (fun d => include_flag (replace_backslash d))). exact Hd. }
  split; [reflexivity|]. split; [reflexivity|]. split; [reflexivity|].
  split; [exists cs, ss, cpps; repeat split; reflexivity|].
  destruct (String.eqb name "netsocket") eqn:En.
  - apply String.eqb_eq in En. subst name.
    split; [reflexivity|]. split.
    + intros d Hd. split; [apply (in_or_app base); left; exact (Hextra d Hd)|apply replace_backslash_no_bs].
    + split; [split; [reflexivity|intros _; apply (in_or_app base); right; left; reflexivity]|].
      cbn. split; [intros _; auto|discriminate].
  - apply String.eqb_neq in En.
    split; [reflexivity|]. split.
    + intros d Hd. split; [exact (Hextra d Hd)|apply replace_backslash_no_bs].
    + split; [split; [intros Hin; contradiction|intros Hn; contradiction]|].
      destruct (String.eqb name "mbed-client-randlib") eqn:Er.
      * apply String.eqb_eq in Er. subst name. cbn. split; [intros _; auto|discriminate].
      * apply String.eqb_neq in Er. destruct (String.eqb name "nfc") eqn:Ef.
        -- apply String.eqb_eq in Ef. subst name. cbn. split; [intros _; auto|discriminate].
        -- apply String.eqb_neq in Ef. split; [intros H; contradiction|].
           intros [H|[H|[H|[]]]]; congruence.
Qed.

End MbedManifest.

Module MbedLibs.
Import Py OsPath Mbed.

(** [process_global_lib] changes nothing when the library name is empty,
    the configurations are empty, or the library has no configuration or
    an empty one. *)
Theorem process_global_lib_noop (FRAMEWORK_DIR : string) (env : Env) (libname : string)
    (lib_configs : Dict LibConfig) :
  libname = EmptyString \/ lib_configs = [] \/ dict_get lib_configs libname = None \/
  (exists c, dict_get lib_configs libname = Some c /\ lib_config_empty c = true) ->
  process_global_lib FRAMEWORK_DIR env libname lib_configs = Ok env.
Proof.
  intros H. unfold process_global_lib.
  destruct libname as [|c0 l0]; [reflexivity|].
  destruct lib_configs as [|kv cfgs]; [reflexivity|].
  destruct H as [H|[H|[H|[c [H He]]]]]; [discriminate|discriminate|rewrite H; reflexivity|].
  rewrite H, He. reflexivity.
Qed.

(** For a non-empty configuration of a named library, [process_global_lib]
    appends [FRAMEWORK_DIR/dir/f] to [CPPPATH] for each include directory
    [f], in order, and [mbed-<libname>] once to [LIB_DEPS].  A missing
    [inc_dirs] raises [TypeError]; a missing [dir] raises [AttributeError],
    but only when there is an include directory to join it with. *)
Theorem process_global_lib_appends (FRAMEWORK_DIR : string) (env : Env) (libname : string)
    (lib_configs : Dict LibConfig) (c : LibConfig) :
  libname <> EmptyString -> dict_get lib_configs libname = Some c ->
  lib_config_empty c = false ->
  process_global_lib FRAMEWORK_DIR env libname lib_configs =
  match lc_inc_dirs c, lc_dir c with
  | None, _ => Err TypeError
  | Some [], _ => Ok (env_append env [] ["mbed-" ++ libname])
  | Some (_ :: _), None => Err AttributeError
  | Some incs, Some d =>
      Ok (env_append env (map (fun f => join (join FRAMEWORK_DIR d) f) incs)
            ["mbed-" ++ libname])
  end.
Proof.
  intros Hn Hg He. unfold process_global_lib.
  destruct libname as [|c0 l0]; [congruence|].
  destruct lib_configs as [|kv cfgs]; [discriminate|].
  rewrite Hg, He. unfold get_list.
  destruct (lc_inc_dirs c) as [incs|]; [|reflexivity].
  destruct incs as [|f incs]; [reflexivity|].
  destruct (lc_dir c) as [d|]; [|reflexivity].
  cbn [map_result join_dir].
  assert (Hm : forall l, map_result (join_dir FRAMEWORK_DIR (Some d)) l =
                         Ok (map (fun f => join (join FRAMEWORK_DIR d) f) l)).
  { induction l as [|x l IH]; [reflexivity|]. cbn [map_result join_dir map].
    rewrite IH. reflexivity. }
  rewrite Hm. reflexivity.
Qed.

(** *** Dictionaries *)

Lemma dict_get_set {V} (d : Dict V) (k k' : string) (v : V) :
  dict_get (dict_set d k' v) k = if String.eqb k k' then Some v else dict_get d k.
Proof.
  induction d as [|[k1 v1] d IH]; cbn [dict_set dict_get].
  - reflexivity.
  - destruct (String.eqb k' k1) eqn:E1.
    + apply String.eqb_eq in E1. subst k1. cbn [dict_get].
      destruct (String.eqb k k'); reflexivity.
    + cbn [dict_get]. rewrite IH.
      destruct (String.eqb k k1) eqn:E2, (String.eqb k k') eqn:E3; try reflexivity.
      apply String.eqb_eq in E2, E3. subst. rewrite String.eqb_refl in E1. discriminate.
Qed.

Lemma dict_get_none {V} (d : Dict V) (k : string) :
  ~ In k (map fst d) -> dict_get d k = None.
Proof.
  induction d as [|[k1 v1] d IH]; intros H; [reflexivity|]. cbn [dict_get].
  destruct (String.eqb k k1) eqn:E.
  - apply String.eqb_eq in E. subst. exfalso. apply H. left. reflexivity.
  - apply IH. intros Hin. apply H. right. exact Hin.
Qed.

Lemma dict_set_keys {V} (d : Dict V) (k k' : string) (v : V) :
  In k (map fst (dict_set d k' v)) <-> k = k' \/ In k (map fst d).
Proof.
  induction d as [|[k1 v1] d IH]; cbn [dict_set map fst].
  - cbn. intuition congruence.
  - destruct (String.eqb k' k1) eqn:E.
    + apply String.eqb_eq in E. subst. cbn [map fst In]. intuition congruence.
    + cbn [map fst In]. rewrite IH. intuition congruence.
Qed.

Lemma dict_set_nodup {V} (d : Dict V) (k : string) (v : V) :
  NoDup (map fst d) -> NoDup (map fst (dict_set d k v)).
Proof.
  induction d as [|[k1 v1] d IH]; intros H; cbn [dict_set map fst].
  - constructor; [intros []|constructor].
  - inversion H as [|? ? Hk Hd]; subst.
    destruct (String.eqb k k1) eqn:E1; cbn [map fst]; constructor; auto.
    rewrite dict_set_keys. intros [E|E]; [|contradiction].
    subst. rewrite String.eqb_refl in E1. discriminate.
Qed.

Lemma dict_get_update {V} (d1 d2 : Dict V) (k : string) :
  NoDup (map fst d2) ->
  dict_get (dict_update d1 d2) k =
  match dict_get d2 k with Some v => Some v | None => dict_get d1 k end.
Proof.
  unfold dict_update. revert d1; induction d2 as [|[k2 v2] d2 IH]; intros d1 H;
    cbn [fold_left fst snd]; [reflexivity|].
  inversion H as [|? ? Hk Hd]; subst. rewrite IH by exact Hd.
  rewrite dict_get_set. cbn [dict_get]. destruct (String.eqb k k2) eqn:E.
  - apply String.eqb_eq in E. subst. rewrite (dict_get_none d2 k2 Hk). reflexivity.
  - destruct (dict_get d2 k); reflexivity.
Qed.

Lemma dict_update_keys {V} (d1 d2 : Dict V) (k : string) :
  In k (map fst (dict_update d1 d2)) <-> In k (map fst d1) \/ In k (map fst d2).
Proof.
  unfold dict_update. revert d1; induction d2 as [|[k2 v2] d2 IH]; intros d1;
    cbn [fold_left fst snd map In]; [tauto|].
  rewrite IH, dict_set_keys. intuition congruence.
Qed.

Lemma dict_update_nodup {V} (d1 d2 : Dict V) :
  NoDup (map fst d1) -> NoDup (map fst (dict_update d1 d2)).
Proof.
  unfold dict_update. revert d1; induction d2 as [|[k2 v2] d2 IH]; intros d1 H;
    cbn [fold_left fst snd]; [exact H|].
  apply IH, dict_set_nodup, H.
Qed.

(** After [libs.update(components)], [libs.update(features)] and
    [libs.update(frameworks)], a library's configuration comes from
    [frameworks] if it is there, else from [features], else from
    [components], else from [libs].  Every library of the four
    dictionaries is a key of the result, and only those; keys stay
    unique. *)
Theorem merge_libs_lookup (libs components features frameworks : Dict LibConfig) (k : string) :
  NoDup (map fst components) -> NoDup (map fst features) -> NoDup (map fst frameworks) ->
  dict_get (merge_libs libs components features frameworks) k =
    match dict_get frameworks k with
    | Some v => Some v
    | None =>
        match dict_get features k with
        | Some v => Some v
        | None =>
            match dict_get components k with
            | Some v => Some v
            | None => dict_get libs k
            end
        end
    end /\
  (In k (map fst (merge_libs libs components features frameworks)) <->
   In k (map fst libs) \/ In k (map fst components) \/ In k (map fst features) \/
   In k (map fst frameworks)) /\
  (NoDup (map fst libs) -> NoDup (map fst (merge_libs libs components features frameworks))).
Proof.
  intros Hc Hf Hw. unfold merge_libs. split; [|split].
  - rewrite !dict_get_update by assumption. reflexivity.
  - rewrite !dict_update_keys. tauto.
  - intros Hl. apply dict_update_nodup, dict_update_nodup, dict_update_nodup, Hl.
Qed.

Lemma get_dynamic_manifest_ok_iff (name : string) (config : LibConfig) (extra : list string) :
  (exists m, get_dynamic_manifest name config extra = Ok m) <->
  (lc_inc_dirs config <> None /\ lc_c_sources config <> None /\
   lc_s_sources config <> None /\ lc_cpp_sources config <> None).
Proof.
  unfold get_dynamic_manifest, get_list.
  destruct (lc_inc_dirs config), (lc_c_sources config), (lc_s_sources config),
    (lc_cpp_sources config);
    (split; [intros [m H]; try discriminate; repeat split; discriminate
            |intros [H1 [H2 [H3 H4]]]; try congruence; eauto]).
Qed.

(** A library builder is created for every non-empty configuration and
    only for those, in order; each one has the framework directory joined
    with the configuration's [dir] and the manifest [get_dynamic_manifest]
    builds without extra include directories.  The loop succeeds exactly
    when every non-empty configuration has [dir], [inc_dirs], [c_sources],
    [s_sources] and [cpp_sources]. *)
Theorem lib_builders_ok (FRAMEWORK_DIR : string) (libs : Dict LibConfig) :
  ((exists bs, lib_builders FRAMEWORK_DIR libs = Ok bs) <->
   Forall (fun kv => lib_config_empty (snd kv) = false ->
             lc_dir (snd kv) <> None /\ lc_inc_dirs (snd kv) <> None /\
             lc_c_sources (snd kv) <> None /\ lc_s_sources (snd kv) <> None /\
             lc_cpp_sources (snd kv) <> None) libs) /\
  (forall bs, lib_builders FRAMEWORK_DIR libs = Ok bs ->
   Forall2 (fun kv b => exists d, lc_dir (snd kv) = Some d /\
              fst b = join FRAMEWORK_DIR d /\
              get_dynamic_manifest (fst kv) (snd kv) [] = Ok (snd b))
     (filter (fun kv => negb (lib_config_empty (snd kv))) libs) bs).
Proof.
  induction libs as [|[lib c] libs [IH1 IH2]].
  - split; [split; [intros _; constructor|intros _; exists []; reflexivity]|].
    intros bs H. injection H as <-. constructor.
  - cbn [lib_builders filter fst snd]. destruct (lib_config_empty c) eqn:Ec; cbn [negb].
    + split.
      * rewrite IH1. split; [intros H; constructor; [cbn [snd]; congruence|exact H]|].
        intros H. inversion H; assumption.
      * exact IH2.
    + split.
      * split.
        -- intros [bs H]. destruct (lc_dir c) as [d|] eqn:Ed; [|discriminate].
           destruct (get_dynamic_manifest lib c []) as [m|] eqn:Em; [|discriminate].
           destruct (lib_builders FRAMEWORK_DIR libs) as [bs'|] eqn:Eb; [|discriminate].
           constructor.
           ++ intros _. cbn [snd]. split; [rewrite Ed; discriminate|].
              apply get_dynamic_manifest_ok_iff with (name := lib) (extra := []).
              exists m. exact Em.
           ++ apply IH1. exists bs'. reflexivity.
        -- intros H. inversion H as [|? ? Hc Hl]; subst.
           cbn [snd] in Hc. destruct (Hc Ec) as [Hd Hm].
           destruct (lc_dir c) as [d|]; [|congruence].
           apply (get_dynamic_manifest_ok_iff lib c []) in Hm as [m Hm]. rewrite Hm.
           apply IH1 in Hl as [bs Hb]. rewrite Hb. eauto.
      * intros bs H. destruct (lc_dir c) as [d|] eqn:Ed; [|discriminate].
        destruct (get_dynamic_manifest lib c []) as [m|] eqn:Em; [|discriminate].
        destruct (lib_builders FRAMEWORK_DIR libs) as [bs'|] eqn:Eb; [|discriminate].
        injection H as <-. constructor; [|apply IH2; reflexivity].
        exists d. auto.
Qed.

End MbedLibs.

(** * Concrete runs of the further properties *)

Module ExtraRuns.
Import Py OsPath Adapter.

(** A framework root with a trailing separator: the first character of
    every path is dropped, whatever the path. *)
Lemma fix_path_trailing_sep_witness :
  basename (framework_path ExtraDemo.adapter_trailing) = EmptyString /\
  fix_path ExtraDemo.adapter_trailing (Some "../framework-mbed/drivers/uart.c") =
    "./framework-mbed/drivers/uart.c".
Proof.
  assert (Hb : basename (framework_path ExtraDemo.adapter_trailing) = EmptyString)
    by (vm_compute; reflexivity).
  split; [exact Hb|].
  rewrite (AdapterExtras.fix_path_trailing_sep ExtraDemo.adapter_trailing _ Hb).
  vm_compute. reflexivity.
Defined.

Lemma extract_project_info_no_sources_witness :
  Demo.extract ExtraDemo.adapter_no_src Demo.profiles_present Demo.scan [] =
    (Raise IndexError, [EPrepareToolchain []]).
Proof.
  unfold Demo.extract.
  apply (AdapterExtras.extract_project_info_no_sources
           Demo.target_map Demo.profiles_present Demo.load_profile
           Demo.prepare Demo.scan Demo.relpath ExtraDemo.adapter_no_src false []).
  - reflexivity.
  - intros H. vm_compute in H. discriminate.
  - reflexivity.
Defined.

Lemma merge_apps_update_image_witness :
  merge_apps Demo.adapter ["application"] Demo.update_filename
    Demo.regions_toolchain "firmware.elf" "firmware.bin" [] =
    (Ret tt, [EMerge [Demo.region "bootloader" false;
                      replace_filename (Demo.region "application" true) "firmware.elf"]
                     "firmware.bin";
              EMerge [replace_filename (Demo.region "application" true) "firmware.elf"]
                     ".pio/build/k64f/K64F_update.bin"]) /\
  ".pio/build/k64f/K64F_update.bin" = join (build_path Demo.adapter) "K64F_update.bin".
Proof.
  assert (Hrun : merge_apps Demo.adapter ["application"] Demo.update_filename
    Demo.regions_toolchain "firmware.elf" "firmware.bin" [] =
    (Ret tt, ([] ++ [EMerge [Demo.region "bootloader" false;
                      replace_filename (Demo.region "application" true) "firmware.elf"]
                     "firmware.bin";
              EMerge [replace_filename (Demo.region "application" true) "firmware.elf"]
                     ".pio/build/k64f/K64F_update.bin"])%list))
    by (vm_compute; reflexivity).
  split; [exact Hrun|].
  exact (proj1 (MergeExtras.merge_apps_update_image Demo.adapter ["application"]
                  Demo.update_filename Demo.regions_toolchain "firmware.elf" "firmware.bin"
                  [] _ _ _ Hrun)).
Defined.

Lemma process_symbols_distinct_witness :
  NoDup ["FOO"; "BAR=1"; "X=" ++ dq ++ "a.h" ++ dq] /\
  Sorted PySort.str_lt (process_symbols ["FOO"; "BAR=1"; "X=" ++ dq ++ "a.h" ++ dq]) /\
  process_symbols ["FOO"; "BAR=1"; "X=" ++ dq ++ "a.h" ++ dq] =
    ["BAR=1"; "FOO"; "X=" ++ bs ++ dq ++ "a.h" ++ bs ++ dq].
Proof.
  assert (Hn : NoDup ["FOO"; "BAR=1"; "X=" ++ dq ++ "a.h" ++ dq]).
  { repeat constructor; cbn [In]; intros H; repeat destruct H as [H|H];
      try discriminate; contradiction. }
  split; [exact Hn|]. split.
  - exact (proj2 (SymbolExtras.process_symbols_distinct _ Hn)).
  - vm_compute. reflexivity.
Defined.

Lemma extract_project_info_success_witness :
  Demo.extract Demo.adapter Demo.profiles_present Demo.scan [] =
    (Ret Runs.demo_result, [EPrepareToolchain ["src"]; EScan ["src"]]) /\
  src_paths Demo.adapter <> [].
Proof.
  split; [exact Runs.demo_extract_ok|].
  exact (proj1 (proj2 (proj2 (AdapterExtras.extract_project_info_success
           Demo.target_map Demo.profiles_present Demo.load_profile
           Demo.prepare Demo.scan Demo.relpath Demo.adapter false [] _ _
           Runs.demo_extract_ok)))).
Defined.

End ExtraRuns.

Module MbedRuns.
Import Py OsPath Mbed.

Lemma get_dynamic_manifest_fields_witness :
  exists m,
    get_dynamic_manifest "netsocket" ExtraDemo.netsocket_config [ExtraDemo.lwip_dir] = Ok m /\
    mf_srcFilter m = ["-<*>"; " +<nsapi_dns.c>"; " +<Socket.cpp>"] /\
    In "-DMBED_CONF_EVENTS_PRESENT" (mf_flags m) /\
    In (include_flag "features/lwipstack") (mf_flags m).
Proof.
  destruct (get_dynamic_manifest "netsocket" ExtraDemo.netsocket_config
              [ExtraDemo.lwip_dir]) as [m|e] eqn:E.
  - destruct (MbedManifest.get_dynamic_manifest_fields _ _ _ _ E)
      as [_ [_ [_ [[cs [ss [cpps [Hc [Hs [Hcpp Hf]]]]]] [_ [Hx [He _]]]]]]].
    exists m. split; [reflexivity|]. split; [|split].
    + rewrite Hf. injection Hc as <-. injection Hs as <-. injection Hcpp as <-.
      reflexivity.
    + apply He. reflexivity.
    + assert (Hr : replace_backslash ExtraDemo.lwip_dir = "features/lwipstack")
        by (vm_compute; reflexivity).
      rewrite <- Hr. apply Hx. left. reflexivity.
  - vm_compute in E. discriminate.
Defined.

Lemma process_global_lib_noop_witness :
  process_global_lib Demo.framework (mkEnv ["."] []) "rtos"
    [("events", ExtraDemo.events_config)] = Ok (mkEnv ["."] []).
Proof.
  apply MbedLibs.process_global_lib_noop. right. right. left. reflexivity.
Defined.

Lemma process_global_lib_appends_witness :
  process_global_lib Demo.framework (mkEnv ["."] []) "events"
    [("events", ExtraDemo.events_config)] =
  Ok (mkEnv ["."; "/opt/packages/framework-mbed/events/.";
             "/opt/packages/framework-mbed/events/equeue"] ["mbed-events"]).
Proof.
  rewrite (MbedLibs.process_global_lib_appends Demo.framework (mkEnv ["."] []) "events"
             [("events", ExtraDemo.events_config)] ExtraDemo.events_config).
  - vm_compute. reflexivity.
  - discriminate.
  - reflexivity.
  - reflexivity.
Defined.

Lemma merge_libs_lookup_witness :
  dict_get (merge_libs [("rtos", ExtraDemo.rtos_lib_config)] []
              [("rtos", ExtraDemo.rtos_feature_config)] []) "rtos" =
    Some ExtraDemo.rtos_feature_config.
Proof.
  rewrite (proj1 (MbedLibs.merge_libs_lookup [("rtos", ExtraDemo.rtos_lib_config)] []
                    [("rtos", ExtraDemo.rtos_feature_config)] [] "rtos"
                    (NoDup_nil _) (NoDup_cons "rtos" (in_nil (a := "rtos")) (NoDup_nil _))
                    (NoDup_nil _))).
  reflexivity.
Defined.

End MbedRuns.
